(** * SlurmMultiNodePool: argument partitioning and dispatch artifacts

    A shallow embedding of [slurm_pool/main.py].  The class
    [SlurmMultiNodePool] becomes a record of its attributes; its methods
    become computations in a small state-and-exception monad over the
    instance and the outside world (file system, warnings, log), first
    with writes that always succeed, then over a file system that can
    fail and in which two paths can name one file.  The generated worker
    script is embedded as the function it runs, first with every name
    meaning what the template intends, then with the names looked up as
    the interpreter does. *)

From Stdlib Require Import ZArith Lia.
From stdpp Require Import base list strings gmap pretty.

Local Open Scope Z_scope.

(** ** Characters that cannot be written inside a string literal *)

Definition nl : string := String (Ascii.ascii_of_nat 10) EmptyString.
Definition dq : string := String (Ascii.ascii_of_nat 34) EmptyString.

Definition concat_str (parts : list string) : string :=
  foldr String.append EmptyString parts.

(** ** Python dictionaries

    A [dict] keeps its keys in insertion order, and [str] of a dict
    prints them in that order, so a dictionary is an association list
    without repeated keys. *)

Module PyDict.
Section dict.
Context {K V : Type} `{EqDecision K}.

(** [d[k] = v]: overwrite in place, or append a new key. *)
Fixpoint setitem (d : list (K * V)) (k : K) (v : V) : list (K * V) :=
  match d with
  | [] => [(k, v)]
  | (k', v') :: r =>
      if decide (k = k') then (k', v) :: r else (k', v') :: setitem r k v
  end.

Fixpoint lookup_key (d : list (K * V)) (k : K) : option V :=
  match d with
  | [] => None
  | (k', v') :: r => if decide (k = k') then Some v' else lookup_key r k
  end.

(** [d.get(k, dflt)] *)
Definition get (d : list (K * V)) (k : K) (dflt : V) : V :=
  default dflt (lookup_key d k).

Definition keys (d : list (K * V)) : list K := d.*1.
Definition values (d : list (K * V)) : list V := d.*2.
End dict.
End PyDict.

(** ** Tuples, [range] and extended slices *)

(** [range(n)]: the integers [0 .. n-1], empty when [n <= 0]. *)
Definition range (n : Z) : list Z := seqZ 0 n.

Section slices.
Context {V : Type}.

(** Walk the sequence once: drop [skip] items, keep one, then drop
    [step - 1] items before each further one. *)
Fixpoint stride (skip step : nat) (l : list V) : list V :=
  match l with
  | [] => []
  | x :: t =>
      match skip with
      | O => x :: stride (step - 1) step t
      | S k => stride k step t
      end
  end.

(** [args[i::step]] for [0 <= i] and [1 <= step], the only way the
    partitioner slices: it evaluates the slice inside
    [for i in range(step)], whose body runs only when [step >= 1]
    (Python rejects a zero step, which that loop never reaches). *)
Definition slice_from_step (args : list V) (i step : Z) : list V :=
  stride (Z.to_nat i) (Z.to_nat step) args.

(** The [step] slices at offsets [0 .. step-1]. *)
Definition shards (step : nat) (l : list V) : list (list V) :=
  (λ i, stride i step l) <$> seq 0 step.
End slices.

(** ** Exceptions and the state-and-exception monad

    A computation reads and updates a state and either returns a value
    or raises; the state reached when it raises is kept, as attribute
    assignments made before a Python [raise] are. *)

Inductive exn : Type :=
  | ValueError (msg : string)
  | OSError (msg : string)
  | Exception (msg : string)
  | TypeError (msg : string)
  | AttributeError (msg : string)
  | IndexError (msg : string)
  | FileNotFoundError (msg : string).

Inductive result (A : Type) : Type :=
  | Ok (a : A)
  | Raise (e : exn).
Arguments Ok {A} a.
Arguments Raise {A} e.

Definition M (S A : Type) : Type := S → result A * S.

Definition ret {S A} (a : A) : M S A := λ s, (Ok a, s).
Definition bind {S A B} (c : M S A) (k : A → M S B) : M S B :=
  λ s, match c s with
       | (Ok a, s') => k a s'
       | (Raise e, s') => (Raise e, s')
       end.
Definition raise {S A} (e : exn) : M S A := λ s, (Raise e, s).
Definition gets {S A} (f : S → A) : M S A := λ s, (Ok (f s), s).
Definition modify {S} (f : S → S) : M S unit := λ s, (Ok tt, f s).
Definition lift {S A} (r : result A) : M S A := λ s, (r, s).

#[export] Instance M_ret {S} : MRet (M S) := @ret S.
#[export] Instance M_bind {S} : MBind (M S) := λ A B k c, bind c k.

(** ** The instance and the outside world *)

(** What the generator touches outside the instance: the files it
    writes ([open(name, 'w')] followed by [write], taken to succeed),
    the warnings it issues and the records it logs. *)
Record World : Type := mkWorld {
  fs : gmap string string;
  warnings : list string;
  log : list string
}.

Definition write_file (name text : string) (w : World) : World :=
  {| fs := <[name := text]> (fs w); warnings := warnings w; log := log w |}.
Definition warn (msg : string) (w : World) : World :=
  {| fs := fs w; warnings := warnings w ++ [msg]; log := log w |}.
Definition logging_info (msg : string) (w : World) : World :=
  {| fs := fs w; warnings := warnings w; log := log w ++ [msg] |}.

Section pool.
(** Python values passed as arguments, and function objects. *)
Context {V Fn : Type}.

Record Pool : Type := mkPool {
  num_tasks : Z;
  job_name : string;
  log_dir : string;
  time_limit : string;
  mem_limit : string;
  email : string;
  partition : string;
  slurm_script_name : string;
  python_script_name : string;
  cpus_per_task : Z;
  _task_function : option Fn;
  _task2args_map : option (list (Z * list V));
  _kwargs : option (list (string * V))
}.

Definition set_num_tasks (n : Z) (p : Pool) : Pool :=
  mkPool n (job_name p) (log_dir p) (time_limit p) (mem_limit p) (email p)
    (partition p) (slurm_script_name p) (python_script_name p)
    (cpus_per_task p) (_task_function p) (_task2args_map p) (_kwargs p).
Definition set_task_function (f : option Fn) (p : Pool) : Pool :=
  mkPool (num_tasks p) (job_name p) (log_dir p) (time_limit p) (mem_limit p)
    (email p) (partition p) (slurm_script_name p) (python_script_name p)
    (cpus_per_task p) f (_task2args_map p) (_kwargs p).
Definition set_task2args_map (m : option (list (Z * list V))) (p : Pool) : Pool :=
  mkPool (num_tasks p) (job_name p) (log_dir p) (time_limit p) (mem_limit p)
    (email p) (partition p) (slurm_script_name p) (python_script_name p)
    (cpus_per_task p) (_task_function p) m (_kwargs p).
Definition set_kwargs (kw : option (list (string * V))) (p : Pool) : Pool :=
  mkPool (num_tasks p) (job_name p) (log_dir p) (time_limit p) (mem_limit p)
    (email p) (partition p) (slurm_script_name p) (python_script_name p)
    (cpus_per_task p) (_task_function p) (_task2args_map p) kw.

(** The state a method runs in: [self] and the world. *)
Record State : Type := mkState { self : Pool; world : World }.

Definition on_self (f : Pool → Pool) (st : State) : State :=
  mkState (f (self st)) (world st).
Definition on_world (f : World → World) (st : State) : State :=
  mkState (self st) (f (world st)).

(** [__init__]; [uid] is the text of the [uuid.uuid4()] drawn there,
    the only random input of the class. *)
Definition __init__ (uid : string) (num_tasks : Z)
    (job_name log_directory time_limit mem_limit email partition : string)
    (python_script_name slurm_script_name : option string)
    (cpus_per_task : Z) : Pool :=
  let slurm_script_name :=
    match slurm_script_name with
    | None => job_name +:+ "_" +:+ uid +:+ ".slurm"
    | Some n => n
    end in
  let python_script_name :=
    match python_script_name with
    | None => job_name +:+ "_" +:+ uid +:+ ".py"
    | Some n => n
    end in
  mkPool num_tasks job_name log_directory time_limit mem_limit email
    partition slurm_script_name python_script_name cpus_per_task
    None None None.

(** *** The partitioner *)

Definition len (args : list V) : Z := Z.of_nat (length args).

Definition shrink_warning (n t : Z) : string :=
  concat_str [
    "Number of arguments ("; pretty n;
    ") should be at least the number of tasks ("; pretty t; ").";
    " To avoid spawning empty tasks, the number of tasks will automatically be reduced to the ";
    "number of arguments." ].

(** The loop [for i in range(t): mapping[i] = args[i::t]]. *)
Definition fill_mapping (args : list V) (t : Z) : list (Z * list V) :=
  foldl (λ mapping i, PyDict.setitem mapping i (slice_from_step args i t))
        [] (range t).

Definition _create_task2args_mapping (args : list V) : M State unit :=
  t ← gets (λ st, num_tasks (self st));
  (if bool_decide (len args < t) then
     modify (on_world (warn (shrink_warning (len args) t)));;
     modify (on_self (set_num_tasks (len args)))
   else ret tt);;
  t ← gets (λ st, num_tasks (self st));
  let mapping := fill_mapping args t in
  modify (on_self (set_task2args_map (Some mapping))).
End pool.

Arguments Pool : clear implicits.
Arguments State : clear implicits.

(** ** The Python runtime

    What the package takes from the interpreter and its library rather
    than defining it: [repr] of an argument value and of a keyword name;
    [inspect.getsource] (which raises when no source is found), the
    [__name__] of a function object and [textwrap.dedent]. *)

Class PyValues (V : Type) : Type := {
  repr : V → string;
  repr_str : string → string
}.

Class PyLib (Fn : Type) : Type := {
  getsource : Fn → result string;
  fn_name : Fn → string;
  dedent : string → string
}.

(** ** The dispatch-artifact generator *)

Section generator.
Context {V Fn : Type} `{!PyValues V, !PyLib Fn}.

(** *** Text of Python values *)

Definition repr_tuple (xs : list V) : string :=
  match xs with
  | [] => "()"
  | [x] => "(" +:+ repr x +:+ ",)"
  | _ => "(" +:+ String.concat ", " (repr <$> xs) +:+ ")"
  end.

Definition str_mapping (m : list (Z * list V)) : string :=
  "{" +:+ String.concat ", "
            ((λ kv, pretty kv.1 +:+ ": " +:+ repr_tuple kv.2) <$> m) +:+ "}".

Definition str_kwargs (kw : option (list (string * V))) : string :=
  match kw with
  | None => "None"
  | Some d =>
      "{" +:+ String.concat ", "
                ((λ kv, repr_str kv.1 +:+ ": " +:+ repr kv.2) <$> d) +:+ "}"
  end.

(** *** The worker script *)

Definition wrapper_func_code : string :=
  dedent (concat_str [
    nl;
    "def wrapper(func, args_list, kwargs):"; nl;
    "    for arg in args_list:"; nl;
    "        if kwargs:"; nl;
    "            func(arg, **kwargs)"; nl;
    "        else:"; nl;
    "            func(arg)"; nl ]).

Definition kwargs_code (p : Pool V Fn) : string :=
  "kwargs = " +:+ str_kwargs (_kwargs p).

Definition python_code (p : Pool V Fn) (task_func_code : string)
    (f : Fn) (m : list (Z * list V)) : string :=
  concat_str [
    nl;
    "import sys"; nl;
    "import logging"; nl;
    nl;
    task_func_code; nl;
    nl;
    wrapper_func_code; nl;
    nl;
    "if __name__ == '__main__':"; nl;
    "    task_id = int(sys.argv[1])"; nl;
    "    "; kwargs_code p; nl;
    "    mapping = "; str_mapping m; nl;
    "    args_list = mapping.get(task_id, [])"; nl;
    "    if not args_list:"; nl;
    "        raise ValueError(f"; dq;
      "No arguments found for task_id {task_id}."; dq; ")"; nl;
    nl;
    "    logging.basicConfig(level=logging.INFO, format='%(asctime)s [%(levelname)s] %(message)s')"; nl;
    "    logging.info(f"; dq;
      "Task {task_id}: Processing arguments {args_list} with kwargs {kwargs}";
      dq; ")"; nl;
    nl;
    "    # Here, we're calling the wrapper function, passing in the task function, arguments, and kwargs for this task"; nl;
    "    wrapper("; fn_name f; ", args_list, kwargs)"; nl;
    "    logging.info(f"; dq; "Task {task_id}: finished successfully."; dq;
      ")"; nl ].

(** [not self._task_function] holds for [None] only, a function
    object being true; [not self._task2args_map] holds for [None] and
    for the empty dict. *)
Definition task_function_not_set : string :=
  "Task function not set. Use the set_task_function method to set it.".
Definition mapping_not_set : string :=
  "Arguments mapping not set. Please ensure you run _create_task2args_mapping before "
  +:+ "creating the script.".

Definition create_python_script : M (State V Fn) unit :=
  p ← gets self;
  match _task_function p with
  | None => raise (ValueError task_function_not_set)
  | Some f =>
      match _task2args_map p with
      | None | Some [] => raise (ValueError mapping_not_set)
      | Some m =>
          src ← lift (getsource f);
          let task_func_code := dedent src in
          let text := python_code p task_func_code f m in
          modify (on_world (write_file (python_script_name p) text));;
          modify (on_world (logging_info
            ("Python script " +:+ python_script_name p +:+ " created.")))
      end
  end.

(** *** The submission descriptor *)

Definition array_upper_limit (p : Pool V Fn) : Z := num_tasks p - 1.

(** The array directive, as it stands in the template. *)
Definition array_directive (upper : Z) : string :=
  "        #SBATCH --array=0-" +:+ pretty upper +:+ nl.

Definition slurm_head (p : Pool V Fn) : string :=
  concat_str [
    "        #!/bin/bash"; nl;
    nl;
    "        ## add additional SBATCH directives here"; nl;
    "        #SBATCH --partition="; partition p; nl;
    "        #SBATCH --job-name="; job_name p; nl;
    "        #SBATCH --output="; log_dir p; "/%j.log"; nl;
    "        #SBATCH --time="; time_limit p; nl;
    "        #SBATCH --mem="; mem_limit p; nl;
    "        #SBATCH --cpus-per-task="; pretty (cpus_per_task p); nl;
    "        #SBATCH --mail-type=FAIL"; nl;
    "        #SBATCH --mail-user="; email p; nl ].

Definition slurm_tail (p : Pool V Fn) : string :=
  concat_str [
    nl;
    "        # load modules, adjust to your needs"; nl;
    "        ml devel"; nl;
    "        ml python/3.9.0"; nl;
    nl;
    "        # execute the Python code, this should stay as is."; nl;
    "        python3 "; python_script_name p; " ${SLURM_ARRAY_TASK_ID}"; nl;
    "        " ].

(** The f-string before [textwrap.dedent] is applied to it. *)
Definition slurm_template (p : Pool V Fn) (upper : Z) : string :=
  slurm_head p +:+ array_directive upper +:+ slurm_tail p.

Definition slurm_commands (p : Pool V Fn) : string :=
  dedent (slurm_template p (array_upper_limit p)).

Definition create_slurm_script : M (State V Fn) unit :=
  p ← gets self;
  modify (on_world (write_file (slurm_script_name p) (slurm_commands p)));;
  modify (on_world (logging_info
    ("SLURM script " +:+ slurm_script_name p +:+ " created."))).

(** *** The pipeline *)

Definition create_job (task_function : Fn) (args : list V)
    (kwargs : list (string * V)) : M (State V Fn) unit :=
  modify (on_self (set_task_function (Some task_function)));;
  modify (on_self (set_kwargs (Some kwargs)));;
  _create_task2args_mapping args;;
  create_python_script;;
  create_slurm_script.
End generator.

(** ** The generated worker script

    What the script written by [create_python_script] does when it is
    run as [python3 script task_id]: the body under
    [if __name__ == '__main__'] together with [wrapper], every name in
    it meaning what the template intends.  [task_id] is the integer
    parsed from [sys.argv[1]]; [mapping] and [kwargs] are the values of
    the two embedded literals.  The lookup of the names, and the parse,
    are followed in [run_script] further down. *)

Section worker.
Context {V U : Type} `{!PyValues V}.

(** What a run of the script touches: the state [U] the task function
    acts on, the calls made to it so far, and the log. *)
Record Run : Type := mkRun {
  user : U;
  calls : list (V * list (string * V));
  run_log : list string
}.

(** The task function: given the positional value and the keyword
    arguments it changes the state and may raise. *)
Context (func : V → list (string * V) → U → U * option exn).

Definition call (arg : V) (kw : list (string * V)) : M Run unit :=
  λ r,
    let '(u, e) := func arg kw (user r) in
    let r' := mkRun u (calls r ++ [(arg, kw)]) (run_log r) in
    match e with
    | None => (Ok tt, r')
    | Some e => (Raise e, r')
    end.

Definition info (msg : string) : M Run unit :=
  modify (λ r, mkRun (user r) (calls r) (run_log r ++ [msg])).

(** [if kwargs:] *)
Definition truthy (kwargs : option (list (string * V))) : bool :=
  match kwargs with
  | Some (_ :: _) => true
  | _ => false
  end.

Fixpoint wrapper (args_list : list V)
    (kwargs : option (list (string * V))) : M Run unit :=
  match args_list with
  | [] => ret tt
  | arg :: rest =>
      (if truthy kwargs then call arg (default [] kwargs)
       else call arg []);;
      wrapper rest kwargs
  end.

Definition no_arguments (task_id : Z) : string :=
  "No arguments found for task_id " +:+ pretty task_id +:+ ".".

Definition worker_main (mapping : list (Z * list V))
    (kwargs : option (list (string * V))) (task_id : Z) : M Run unit :=
  let args_list := PyDict.get mapping task_id [] in
  match args_list with
  | [] => raise (ValueError (no_arguments task_id))
  | _ :: _ =>
      info (concat_str [
        "Task "; pretty task_id; ": Processing arguments ";
        repr_tuple args_list; " with kwargs "; str_kwargs kwargs ]);;
      wrapper args_list kwargs;;
      info (concat_str [ "Task "; pretty task_id; ": finished successfully." ])
  end.
End worker.

Arguments Run : clear implicits.

(** ** The submission driver

    [submit_job] hands the descriptor to the scheduler with
    [subprocess.run(['sbatch', name], check=True)].  The scheduler is
    outside the package: [sbatch name files] is the exception that call
    raises, if any, for the path it is given and the files present at
    that moment (a non-zero exit status raises, as [check=True] asks;
    so does a missing [sbatch] command). *)

Class Scheduler : Type := {
  sbatch : string → gmap string string → option exn
}.

Section submission.
Context {V Fn : Type} `{!PyValues V, !PyLib Fn, !Scheduler}.

(** The instance and its world, together with the runs of [sbatch] made
    so far: the path each was given and the files it found. *)
Record Cluster : Type := mkCluster {
  node : State V Fn;
  submissions : list (string * gmap string string)
}.

(** A method of the instance, run where submissions are recorded. *)
Definition in_node {A} (c : M (State V Fn) A) : M Cluster A :=
  λ cl, let '(r, st) := c (node cl) in (r, mkCluster st (submissions cl)).

Definition submitted_record (p : Pool V Fn) : string :=
  "Job " +:+ job_name p +:+ " submitted.".

Definition submit_job : M Cluster unit :=
  p ← gets (λ cl, self (node cl));
  files ← gets (λ cl, fs (world (node cl)));
  modify (λ cl, mkCluster (node cl)
                  (submissions cl ++ [(slurm_script_name p, files)]));;
  match sbatch (slurm_script_name p) files with
  | Some e => raise e
  | None => in_node (modify (on_world (logging_info (submitted_record p))))
  end.

Definition create_submit_job (task_function : Fn) (args : list V)
    (kwargs : list (string * V)) : M Cluster unit :=
  in_node (create_job task_function args kwargs);;
  submit_job.

End submission.

Arguments Cluster : clear implicits.

(** ** The methods over a file system that can fail

    Above, [open(name, 'w')] followed by [write] always succeeds and
    every path names a file of its own.  Here the file system is a
    parameter: [resolve] gives the file a path names (two paths can
    name one file), and [write_outcome path text files] says what
    opening [path] for writing and writing [text] does when the files
    are [files]: the text is written; or [open] raises and no file is
    touched; or [open] has emptied the file and [write] raises, leaving
    [remains] in it.  The three methods that write are repeated over it,
    word for word apart from the write. *)

Inductive write_result : Type :=
  | Written
  | OpenFails (e : exn)
  | WriteFails (e : exn) (remains : string).

Class FileSystem : Type := {
  resolve : string → string;
  write_outcome : string → string → gmap string string → write_result
}.

Module Disk.
Section disk.
Context {V Fn : Type} `{!PyValues V, !PyLib Fn, !FileSystem}.

(** [with open(path, 'w') as script_file: script_file.write(text)] *)
Definition write (path text : string) : M (State V Fn) unit :=
  λ st,
    match write_outcome path text (fs (world st)) with
    | Written => (Ok tt, on_world (write_file (resolve path) text) st)
    | OpenFails e => (Raise e, st)
    | WriteFails e remains =>
        (Raise e, on_world (write_file (resolve path) remains) st)
    end.

Definition create_python_script : M (State V Fn) unit :=
  p ← gets self;
  match _task_function p with
  | None => raise (ValueError task_function_not_set)
  | Some f =>
      match _task2args_map p with
      | None | Some [] => raise (ValueError mapping_not_set)
      | Some m =>
          src ← lift (getsource f);
          let task_func_code := dedent src in
          let text := python_code p task_func_code f m in
          write (python_script_name p) text;;
          modify (on_world (logging_info
            ("Python script " +:+ python_script_name p +:+ " created.")))
      end
  end.

Definition create_slurm_script : M (State V Fn) unit :=
  p ← gets self;
  write (slurm_script_name p) (slurm_commands p);;
  modify (on_world (logging_info
    ("SLURM script " +:+ slurm_script_name p +:+ " created."))).

Definition create_job (task_function : Fn) (args : list V)
    (kwargs : list (string * V)) : M (State V Fn) unit :=
  modify (on_self (set_task_function (Some task_function)));;
  modify (on_self (set_kwargs (Some kwargs)));;
  _create_task2args_mapping args;;
  create_python_script;;
  create_slurm_script.
End disk.
End Disk.

(** * Vocabulary of the properties *)

Section vocabulary.
Context {V Fn : Type} `{!PyValues V, !PyLib Fn}.
Implicit Types (p : Pool V Fn) (st : State V Fn) (w : World).

(** The task count the mapping is built with. *)
Definition effective_tasks (t n : Z) : Z :=
  if bool_decide (n < t) then n else t.

(** Round-robin reconstruction: position [p] of the result is item
    [p / T] of the shard of task [p mod T], for [T] the number of keys
    and as many positions as the shards hold items. *)
Definition interleave (m : list (Z * list V)) : option (list V) :=
  let T := length m in
  let n := sum_list (length <$> PyDict.values m) in
  mapM (λ p : nat,
          shard ← PyDict.lookup_key m (Z.of_nat (p mod T));
          shard !! (p / T)%nat)
       (seq 0 n).

(** The text of the worker script an instance would write, or the
    exception that stops it. *)
Definition worker_text p : result string :=
  match _task_function p with
  | None => Raise (ValueError task_function_not_set)
  | Some f =>
      match _task2args_map p with
      | None | Some [] => Raise (ValueError mapping_not_set)
      | Some m =>
          match getsource f with
          | Ok src => Ok (python_code p (dedent src) f m)
          | Raise e => Raise e
          end
      end
  end.

Definition python_written p (text : string) w : World :=
  logging_info ("Python script " +:+ python_script_name p +:+ " created.")
    (write_file (python_script_name p) text w).
Definition slurm_written p w : World :=
  logging_info ("SLURM script " +:+ slurm_script_name p +:+ " created.")
    (write_file (slurm_script_name p) (slurm_commands p) w).

(** The instance and the world [create_job] has reached when it
    starts writing. *)
Definition bound (f : Fn) (args : list V) (kwargs : list (string * V)) st
    : State V Fn :=
  let t := num_tasks (self st) in
  let t' := effective_tasks t (len args) in
  mkState
    (set_task2args_map (Some (fill_mapping args t'))
       (set_num_tasks t'
          (set_kwargs (Some kwargs)
             (set_task_function (Some f) (self st)))))
    (if bool_decide (len args < t)
     then warn (shrink_warning (len args) t) (world st)
     else world st).

(** [create_job] called [n] times in a row on the same instance with the
    same function and arguments, whatever the earlier calls did: the
    outcome of the last call and the state it left. *)
Fixpoint regenerate (n : nat) (f : Fn) (args : list V)
    (kwargs : list (string * V)) st : result unit * State V Fn :=
  match n with
  | O => (Ok tt, st)
  | S k => create_job f args kwargs (regenerate k f args kwargs st).2
  end.
End vocabulary.

Section worker_vocabulary.
Context {V U : Type} `{!PyValues V}.
Context (func : V → list (string * V) → U → U * option exn).

(** The keyword arguments every call receives. *)
Definition passed (kwargs : option (list (string * V))) : list (string * V) :=
  default [] kwargs.


Definition called (kw : list (string * V)) (vs : list V)
    : list (V * list (string * V)) :=
  (λ v, (v, kw)) <$> vs.

End worker_vocabulary.

(** ** The generated script, name by name

    The script written by [create_python_script] is one module: after
    [import sys] and [import logging] comes the source of the task
    function, then [def wrapper], then the block under
    [if __name__ == '__main__'], and every name in that block is looked
    up in the namespace those statements have filled.  [run_script]
    follows the block statement by statement with the names resolved
    that way, for a task function whose source is a plain [def] that
    binds the function under its [__name__] (the name the script passes
    to [wrapper]); [argv] is [sys.argv].  The function [worker_main]
    above is what the block does once every name means what the
    template intends.

    A run the model does not follow is [None]: the task function stands
    where the script expects the builtin [int] or [ValueError], or it is
    called [wrapper] and keyword arguments are passed. *)

(** [int(s)] for a string: its value, or [None] where Python raises
    [ValueError]. *)
Class PyInt : Type := {
  py_int : string → option Z
}.

Section script.
Context {V U : Type} `{!PyValues V, !PyInt}.
Context (func : V → list (string * V) → U → U * option exn).

(** What a name of the script can be bound to. *)
Inductive obj : Type :=
  | ModuleObj (name : string)
  | Builtin (name : string)
  | TaskFunction
  | WrapperFunction
  | StrObj (s : string)
  | IntObj (z : Z)
  | KwargsObj (kw : option (list (string * V)))
  | MappingObj (m : list (Z * list V))
  | ArgsObj (l : list V).

(** [type(o).__name__], as error messages print it. *)
Definition type_name (o : obj) : string :=
  match o with
  | ModuleObj _ => "module"
  | Builtin _ => "type"
  | TaskFunction | WrapperFunction => "function"
  | StrObj _ => "str"
  | IntObj _ => "int"
  | KwargsObj None => "NoneType"
  | KwargsObj (Some _) | MappingObj _ => "dict"
  | ArgsObj [] => "list"
  | ArgsObj (_ :: _) => "tuple"
  end.

Definition builtins : gmap string obj :=
  {[ "int" := Builtin "int"; "ValueError" := Builtin "ValueError" ]}.

(** A name is looked up in the globals of the module, then in the
    builtins. *)
Definition load (globals : gmap string obj) (x : string) : option obj :=
  match globals !! x with
  | Some o => Some o
  | None => builtins !! x
  end.

(** The globals when the main block is reached: [__name__], the two
    imports, the task function under [name], then [wrapper]. *)
Definition module_globals (name : string) : gmap string obj :=
  <["wrapper" := WrapperFunction]>
    (<[name := TaskFunction]>
       (<["logging" := ModuleObj "logging"]>
          (<["sys" := ModuleObj "sys"]>
             {[ "__name__" := StrObj "__main__" ]}))).

(** [__name__ == '__main__'] *)
Definition is_main (o : option obj) : bool :=
  match o with
  | Some (StrObj s) => bool_decide (s = "__main__")
  | _ => false
  end.

Definition no_attribute (o : obj) (attr : string) : exn :=
  AttributeError
    ("'" +:+ type_name o +:+ "' object has no attribute '" +:+ attr +:+ "'").
Definition not_callable (o : obj) : exn :=
  TypeError ("'" +:+ type_name o +:+ "' object is not callable").

(** [func(arg, **kw)] or [func(arg)] inside [wrapper], for what [func]
    is there; [wrapper] itself is only ever called here with the one
    positional argument. *)
Definition invoke (callee : obj) (arg : V) (kw : list (string * V))
    : M (Run V U) unit :=
  match callee with
  | TaskFunction => call func arg kw
  | WrapperFunction =>
      raise (TypeError
        "wrapper() missing 2 required positional arguments: 'args_list' and 'kwargs'")
  | o => raise (not_callable o)
  end.

Fixpoint wrapper_on (callee : obj) (args_list : list V)
    (kwargs : option (list (string * V))) : M (Run V U) unit :=
  match args_list with
  | [] => ret tt
  | arg :: rest =>
      (if truthy kwargs then invoke callee arg (default [] kwargs)
       else invoke callee arg []);;
      wrapper_on callee rest kwargs
  end.

Definition is_wrapper (o : obj) : bool :=
  match o with
  | WrapperFunction => true
  | _ => false
  end.

Definition run_script (name : string) (mapping : list (Z * list V))
    (kwargs : option (list (string * V))) (argv : list string)
    (r : Run V U) : option (result unit * Run V U) :=
  let g := module_globals name in
  if negb (is_main (load g "__name__")) then Some (Ok tt, r) else
  (* task_id = int(sys.argv[1]) *)
  match load g "int", load g "sys" with
  | Some (Builtin _), Some (ModuleObj _) =>
      match argv !! 1%nat with
      | None => Some (Raise (IndexError "list index out of range"), r)
      | Some s =>
          match py_int s with
          | None =>
              Some (Raise (ValueError
                ("invalid literal for int() with base 10: " +:+ repr_str s)), r)
          | Some task_id =>
              let g := <["task_id" := IntObj task_id]> g in
              let g := <["kwargs" := KwargsObj kwargs]> g in
              let g := <["mapping" := MappingObj mapping]> g in
              let args_list := PyDict.get mapping task_id [] in
              let g := <["args_list" := ArgsObj args_list]> g in
              match args_list with
              | [] =>
                  (* raise ValueError(f"No arguments found ...") *)
                  match load g "ValueError" with
                  | Some (Builtin _) =>
                      Some (Raise (ValueError (no_arguments task_id)), r)
                  | _ => None
                  end
              | _ :: _ =>
                  (* logging.basicConfig(...); logging.info(...) *)
                  match load g "logging" with
                  | Some (ModuleObj _) =>
                      (* wrapper(<name>, args_list, kwargs) *)
                      match load g "wrapper", load g name with
                      | Some WrapperFunction, Some callee =>
                          if is_wrapper callee && truthy kwargs then None
                          else Some
                            ((info (concat_str [
                                "Task "; pretty task_id;
                                ": Processing arguments ";
                                repr_tuple args_list; " with kwargs ";
                                str_kwargs kwargs ]);;
                              wrapper_on callee args_list kwargs;;
                              info (concat_str [
                                "Task "; pretty task_id;
                                ": finished successfully." ])) r)
                      | _, _ => None
                      end
                  | Some o => Some (Raise (no_attribute o "basicConfig"), r)
                  | None => None
                  end
              end
          end
      end
  | Some (Builtin _), Some o => Some (Raise (no_attribute o "argv"), r)
  | _, _ => None
  end.

(** The names the main block uses or assigns. *)
Definition script_names : list string :=
  [ "__name__"; "int"; "sys"; "ValueError"; "logging"; "wrapper";
    "task_id"; "kwargs"; "mapping"; "args_list" ].

End script.

(** ** A concrete runtime

    Integers as argument values; function objects given by their name
    and, when there is one, their source text; [textwrap.dedent] as the
    library documents it: a line of blanks only is emptied, and the
    longest run of blanks that starts every other line is removed from
    each of them. *)

Definition is_blank (c : Ascii.ascii) : bool :=
  Ascii.eqb c (Ascii.ascii_of_nat 32) || Ascii.eqb c (Ascii.ascii_of_nat 9).

Fixpoint split_lines (s : string) : list string :=
  match s with
  | EmptyString => [EmptyString]
  | String c r =>
      if Ascii.eqb c (Ascii.ascii_of_nat 10) then EmptyString :: split_lines r
      else match split_lines r with
           | l :: ls => String c l :: ls
           | [] => [String c EmptyString]
           end
  end.

Fixpoint all_blank (s : string) : bool :=
  match s with
  | EmptyString => true
  | String c r => is_blank c && all_blank r
  end.

Fixpoint leading_blanks (s : string) : string :=
  match s with
  | EmptyString => EmptyString
  | String c r => if is_blank c then String c (leading_blanks r) else EmptyString
  end.

Fixpoint common_prefix (a b : string) : string :=
  match a, b with
  | String x a', String y b' =>
      if Ascii.eqb x y then String x (common_prefix a' b') else EmptyString
  | _, _ => EmptyString
  end.

Fixpoint remove_prefix (margin line : string) : option string :=
  match margin, line with
  | EmptyString, _ => Some line
  | String x m, String y l => if Ascii.eqb x y then remove_prefix m l else None
  | String _ _, EmptyString => None
  end.

Definition dedent_text (text : string) : string :=
  let ls := (λ l, if all_blank l then EmptyString else l) <$> split_lines text in
  let indents := leading_blanks <$> filter (λ l, all_blank l = false) ls in
  let margin :=
    match indents with
    | [] => EmptyString
    | i :: rest => foldl common_prefix i rest
    end in
  String.concat nl ((λ l, default l (remove_prefix margin l)) <$> ls).

Record PyFunction : Type := mkFunction {
  __name__ : string;
  source : option string
}.

#[export] Instance int_values : PyValues Z := {|
  repr := pretty;
  (* a name without quotes, backslashes or control characters *)
  repr_str := λ s, "'" +:+ s +:+ "'"
|}.

#[export] Instance function_lib : PyLib PyFunction := {|
  getsource := λ f,
    match source f with
    | Some text => Ok text
    | None => Raise (OSError "could not get source code")
    end;
  fn_name := __name__;
  dedent := dedent_text
|}.

Definition square : PyFunction :=
  mkFunction "square"
    (Some (concat_str [
       "    def square(x, **kwargs):"; nl;
       "        print(x * x)"; nl ])).

(** A pool of three tasks with the default partition, script names and
    cpu count, as the constructor builds it, and a world with no files. *)
Definition pool3 : Pool Z PyFunction :=
  __init__ "6fa459ea-ee8a-4ca4-894e-db77e160355e"
    3 "job" "logs" "00:10:00" "1G" "me@example.org" "owners" None None 1.
Definition world0 : World := mkWorld ∅ [] [].

(** A task function that records the values it is called on and fails
    on 20. *)
Definition fails_on_20 (v : Z) (kw : list (string * Z)) (seen : list Z)
    : list Z * option exn :=
  (seen ++ [v], if bool_decide (v = 20) then Some (Exception "boom") else None).

(** A task function that records the values it is called on and
    always returns. *)
Definition records (v : Z) (kw : list (string * Z)) (seen : list Z)
    : list Z * option exn :=
  (seen ++ [v], None).

(** A scheduler that accepts every descriptor, and one whose [sbatch]
    exits with status 1 whatever it is given. *)
Definition accept_all : Scheduler := {| sbatch := λ _ _, None |}.
Definition reject_all : Scheduler :=
  {| sbatch := λ name _,
       Some (Exception ("Command '['sbatch', '" +:+ name
                        +:+ "']' returned non-zero exit status 1.")) |}.

(** Pools of five and of no tasks, and one given the same name for both
    scripts. *)
Definition pool5 : Pool Z PyFunction := set_num_tasks 5 pool3.
Definition pool0 : Pool Z PyFunction := set_num_tasks 0 pool3.
Definition pool_one_name : Pool Z PyFunction :=
  __init__ "6fa459ea-ee8a-4ca4-894e-db77e160355e"
    3 "job" "logs" "00:10:00" "1G" "me@example.org" "owners"
    (Some "job.sh") (Some "job.sh") 1.
Definition world_notes : World :=
  mkWorld {[ "notes.txt" := "keep" ]} [] [].

(** [int] on a string of ASCII characters: blanks at both ends are
    dropped, a sign may come first, and the digits may be separated by
    single underscores. *)
Definition is_space (c : Ascii.ascii) : bool :=
  let n := Ascii.nat_of_ascii c in
  ((9 <=? n)%nat && (n <=? 13)%nat) || ((28 <=? n)%nat && (n <=? 32)%nat).

Definition digit (c : Ascii.ascii) : option Z :=
  let n := Ascii.nat_of_ascii c in
  if ((48 <=? n)%nat && (n <=? 57)%nat) then Some (Z.of_nat (n - 48)) else None.

Fixpoint digits (acc : Z) (after_digit : bool) (s : list Ascii.ascii)
    : option Z :=
  match s with
  | [] => if after_digit then Some acc else None
  | c :: rest =>
      if Ascii.eqb c (Ascii.ascii_of_nat 95)
      then (if after_digit then digits acc false rest else None)
      else match digit c with
           | Some d => digits (10 * acc + d) true rest
           | None => None
           end
  end.

Fixpoint lstrip (s : list Ascii.ascii) : list Ascii.ascii :=
  match s with
  | c :: rest => if is_space c then lstrip rest else s
  | [] => []
  end.
Definition strip (s : list Ascii.ascii) : list Ascii.ascii :=
  reverse (lstrip (reverse (lstrip s))).

Definition decimal_int : PyInt := {|
  py_int := λ s,
    match strip (String.list_ascii_of_string s) with
    | c :: rest =>
        if Ascii.eqb c (Ascii.ascii_of_nat 45) then Z.opp <$> digits 0 false rest
        else if Ascii.eqb c (Ascii.ascii_of_nat 43) then digits 0 false rest
        else digits 0 false (c :: rest)
    | [] => None
    end
|}.

(** Task functions that carry a name the generated script uses
    itself. *)
Definition task_named_wrapper : PyFunction :=
  mkFunction "wrapper"
    (Some (concat_str [
       "def wrapper(x, **kwargs):"; nl;
       "    print(x * x)"; nl ])).
Definition task_named_sys : PyFunction :=
  mkFunction "sys"
    (Some (concat_str [
       "def sys(x, **kwargs):"; nl;
       "    print(x * x)"; nl ])).
Definition task_named_name : PyFunction :=
  mkFunction "__name__"
    (Some (concat_str [
       "def __name__(x, **kwargs):"; nl;
       "    print(x * x)"; nl ])).

(** File systems: one where every path is a file of its own and every
    write succeeds; one where a leading [./] names the same file; one
    where nothing can be opened under [nodir/]. *)
Definition plain_files : FileSystem := {|
  resolve := λ path, path;
  write_outcome := λ _ _ _, Written
|}.

Definition strip_dot_slash (path : string) : string :=
  match path with
  | String a (String b rest) =>
      if Ascii.eqb a (Ascii.ascii_of_nat 46) && Ascii.eqb b (Ascii.ascii_of_nat 47)
      then rest else path
  | _ => path
  end.
Definition dot_slash_files : FileSystem := {|
  resolve := strip_dot_slash;
  write_outcome := λ _ _ _, Written
|}.

Definition missing_directory_files : FileSystem := {|
  resolve := λ path, path;
  write_outcome := λ path _ _,
    if String.prefix "nodir/" path
    then OpenFails (FileNotFoundError
           ("[Errno 2] No such file or directory: '" +:+ path +:+ "'"))
    else Written
|}.

Definition pool_dot_slash : Pool Z PyFunction :=
  __init__ "6fa459ea-ee8a-4ca4-894e-db77e160355e"
    3 "job" "logs" "00:10:00" "1G" "me@example.org" "owners"
    (Some "./job.sh") (Some "job.sh") 1.
Definition pool_missing_directory : Pool Z PyFunction :=
  __init__ "6fa459ea-ee8a-4ca4-894e-db77e160355e"
    3 "job" "logs" "00:10:00" "1G" "me@example.org" "owners"
    (Some "job.py") (Some "nodir/job.slurm") 1.

(** * Properties *)

(** ** Dictionaries *)

Section dict_facts.
Context {K V : Type} `{EqDecision K}.
Implicit Types (d : list (K * V)).

Lemma setitem_fresh d k v :
  k ∉ PyDict.keys d → PyDict.setitem d k v = d ++ [(k, v)].
Proof.
  induction d as [|[k' v'] r IH]; simpl; [done|].
  intros Hk. apply not_elem_of_cons in Hk as [Hne Hr].
  rewrite decide_False by done. by rewrite IH.
Qed.

(** Filling a dict from a list of keys that are new and distinct. *)
Lemma fill_distinct (f : K → V) (ks : list K) d :
  NoDup (PyDict.keys d ++ ks) →
  foldl (λ m i, PyDict.setitem m i (f i)) d ks = d ++ ((λ i, (i, f i)) <$> ks).
Proof.
  revert d. induction ks as [|k ks IH]; intros d Hnd; simpl.
  - by rewrite app_nil_r.
  - rewrite setitem_fresh.
    + rewrite IH.
      * by rewrite <- app_assoc.
      * unfold PyDict.keys in *. rewrite fmap_app. simpl.
        by rewrite <- app_assoc.
    + apply NoDup_app in Hnd as (_ & Hd & _).
      intros Hin. apply (Hd k Hin). left.
Qed.

Lemma lookup_key_tabulate (f : K → V) (ks : list K) (k : K) :
  PyDict.lookup_key ((λ i, (i, f i)) <$> ks) k =
    if decide (k ∈ ks) then Some (f k) else None.
Proof.
  induction ks as [|k' ks IH].
  - destruct (decide (k ∈ [])) as [Hin|_]; [|done].
    by apply elem_of_nil in Hin.
  - rewrite fmap_cons. cbn [PyDict.lookup_key].
    destruct (decide (k = k')) as [->|Hne].
    + destruct (decide (k' ∈ k' :: ks)) as [_|Hnin]; [done|].
      exfalso. apply Hnin. left.
    + rewrite IH.
      destruct (decide (k ∈ ks)) as [Hin|Hnin];
        destruct (decide (k ∈ k' :: ks)) as [Hin'|Hnin']; try done.
      * exfalso. apply Hnin'. by right.
      * apply elem_of_cons in Hin' as [?|?]; done.
Qed.
End dict_facts.

(** ** Slices *)

Section stride_facts.
Context {V : Type}.
Implicit Types (l : list V) (skip step i j : nat).
Local Open Scope nat_scope.

(** Item [j] of the slice is item [skip + j * step] of the sequence;
    this is Python's definition of an extended slice. *)
Lemma stride_lookup step l : 1 ≤ step →
  ∀ skip j, stride skip step l !! j = l !! (skip + j * step).
Proof.
  intros Hstep. induction l as [|x t IH]; intros skip j; simpl.
  - done.
  - destruct skip as [|k].
    + destruct j as [|j]; simpl; [done|].
      rewrite IH.
      replace (step + j * step) with (S (step - 1 + j * step)) by lia.
      done.
    + simpl. apply IH.
Qed.

Lemma stride_lt_length step l skip j : 1 ≤ step →
  j < length (stride skip step l) ↔ skip + j * step < length l.
Proof.
  intros Hstep.
  rewrite <- !lookup_lt_is_Some, stride_lookup by done. done.
Qed.

(** The length of a slice: the quotient, plus one for the first
    [len mod step] offsets. *)
Lemma length_stride step l skip : 1 ≤ step → skip < step →
  length (stride skip step l) =
    length l / step + (if decide (skip < length l mod step) then 1 else 0).
Proof.
  intros Hstep Hskip.
  set (n := length l). set (m := length (stride skip step l)).
  assert (Hm : ∀ j, j < m ↔ skip + j * step < n)
    by (intros j; by apply stride_lt_length).
  pose proof (Nat.div_mod_eq n step) as Hn.
  pose proof (Nat.mod_upper_bound n step ltac:(lia)) as Hr.
  set (q := n / step) in *. set (r := n mod step) in *.
  destruct (decide (skip < r)) as [Hlt|Hge].
  - assert (q < m) by (apply Hm; nia).
    assert (¬ (q + 1 < m)) by (rewrite Hm; nia).
    lia.
  - assert (¬ (q < m)) by (rewrite Hm; nia).
    destruct (decide (q = 0)) as [->|Hq]; [lia|].
    assert (q - 1 < m) by (apply Hm; nia).
    lia.
Qed.

(** Together the slices hold every item exactly as often as the
    sequence does. *)
Lemma shards_Permutation step l : 1 ≤ step →
  concat (shards step l) ≡ₚ l.
Proof.
  intros Hstep. destruct step as [|k]; [lia|].
  induction l as [|x t IH].
  - unfold shards. generalize (seq 0 (S k)). intros ks.
    induction ks as [|? ? IHks]; simpl; done.
  - unfold shards in *.
    rewrite seq_S in IH. rewrite fmap_app, concat_app in IH.
    simpl in IH. rewrite app_nil_r in IH.
    change (seq 0 (S k)) with (0 :: seq 1 k).
    rewrite fmap_cons, <- fmap_S_seq, <- list_fmap_compose. simpl.
    rewrite Nat.sub_0_r. constructor.
    rewrite <- IH at 2. apply Permutation_app_comm.
Qed.
End stride_facts.

(** ** The partitioner *)

Section partition_facts.
Context {V Fn : Type}.
Implicit Types (args : list V) (st : State V Fn) (t : Z).

Lemma fill_mapping_tabulate args t :
  fill_mapping args t = (λ i, (i, slice_from_step args i t)) <$> range t.
Proof.
  unfold fill_mapping.
  rewrite (fill_distinct (λ i, slice_from_step args i t)); [done|].
  simpl. apply NoDup_seqZ.
Qed.

Lemma fill_mapping_keys args t : PyDict.keys (fill_mapping args t) = range t.
Proof.
  rewrite fill_mapping_tabulate. unfold PyDict.keys.
  rewrite <- list_fmap_compose. apply list_fmap_id.
Qed.

Lemma fill_mapping_values args t :
  PyDict.values (fill_mapping args t) = shards (Z.to_nat t) args.
Proof.
  rewrite fill_mapping_tabulate. unfold PyDict.values, shards, range, seqZ.
  rewrite <- !list_fmap_compose. apply list_fmap_ext.
  intros _ i _. simpl. unfold slice_from_step. f_equal. lia.
Qed.

Lemma length_fill_mapping args t : length (fill_mapping args t) = Z.to_nat t.
Proof.
  rewrite fill_mapping_tabulate, length_fmap. apply length_seqZ.
Qed.

Lemma fill_mapping_lookup args t (i : nat) :
  (i < Z.to_nat t)%nat →
  PyDict.lookup_key (fill_mapping args t) (Z.of_nat i)
    = Some (stride i (Z.to_nat t) args).
Proof.
  intros Hi. rewrite fill_mapping_tabulate, lookup_key_tabulate.
  rewrite decide_True by (apply elem_of_seqZ; lia).
  unfold slice_from_step. by rewrite Nat2Z.id.
Qed.

Lemma fill_mapping_lookup_Some args t k shard :
  PyDict.lookup_key (fill_mapping args t) k = Some shard →
  0 ≤ k < t ∧ shard = stride (Z.to_nat k) (Z.to_nat t) args.
Proof.
  rewrite fill_mapping_tabulate, lookup_key_tabulate.
  destruct (decide (k ∈ range t)) as [Hin|]; [|done].
  apply elem_of_seqZ in Hin. intros [= <-]. split; [lia|done].
Qed.

Lemma sum_length_shards (T : nat) args : (1 ≤ T)%nat →
  sum_list (length <$> shards T args) = length args.
Proof.
  intros HT. rewrite <- length_concat.
  apply Permutation_length, shards_Permutation, HT.
Qed.

(** One run of the partitioner, in closed form: it never raises. *)
Lemma create_mapping_run args st :
  let t := num_tasks (self st) in
  let t' := effective_tasks t (len args) in
  _create_task2args_mapping args st =
    (Ok tt,
     mkState
       (set_task2args_map (Some (fill_mapping args t'))
          (set_num_tasks t' (self st)))
       (if bool_decide (len args < t)
        then warn (shrink_warning (len args) t) (world st)
        else world st)).
Proof.
  destruct st as [p w]. unfold effective_tasks. simpl.
  unfold _create_task2args_mapping, mbind, M_bind, bind, gets, modify, ret.
  simpl. destruct (bool_decide (len args < num_tasks p)); simpl.
  - done.
  - by destruct p.
Qed.
End partition_facts.

Section partition_theorems.
Context {V Fn : Type}.
Implicit Types (args : list V) (st : State V Fn).

Lemma interleave_fill_mapping args (t : Z) :
  1 ≤ t → interleave (fill_mapping args t) = Some args.
Proof.
  intros Ht. unfold interleave.
  rewrite length_fill_mapping, fill_mapping_values.
  rewrite sum_length_shards by lia.
  set (T := Z.to_nat t). assert (HT : (1 ≤ T)%nat) by lia.
  apply mapM_Some, Forall2_same_length_lookup.
  split; [by rewrite length_seq|].
  intros p p' x Hp Hx. apply lookup_seq in Hp as [-> Hlt]. simpl.
  rewrite fill_mapping_lookup by (apply Nat.mod_upper_bound; lia).
  simpl. rewrite stride_lookup by done.
  rewrite <- Hx. f_equal.
  pose proof (Nat.div_mod_eq p T). lia.
Qed.

(** C1. For a task count [T >= 1] and a sequence [A] of at least [T]
    arguments, [_create_task2args_mapping] returns normally and stores
    a mapping with the keys [0 .. T-1] in which item [j] of shard [i]
    is item [j*T + i] of [A] (so a position lies in one shard only);
    reading the shards round-robin gives back [A], and the shards
    together hold every argument as often as [A] does. *)
Theorem partition_reconstructs args st :
  let t := num_tasks (self st) in
  1 ≤ t → t ≤ len args →
  ∃ st' m,
    _create_task2args_mapping args st = (Ok tt, st') ∧
    _task2args_map (self st') = Some m ∧
    PyDict.keys m = range t ∧
    (∀ i j : nat, (i < Z.to_nat t)%nat →
       (shard ← PyDict.lookup_key m (Z.of_nat i); shard !! j)
         = args !! (j * Z.to_nat t + i)%nat) ∧
    (∀ p i j : nat, (i < Z.to_nat t)%nat → (j * Z.to_nat t + i)%nat = p →
       i = (p mod Z.to_nat t)%nat ∧ j = (p / Z.to_nat t)%nat) ∧
    interleave m = Some args ∧
    concat (PyDict.values m) ≡ₚ args.
Proof.
  intros t Ht Hlen. eexists _, _.
  split; [apply create_mapping_run|].
  fold t. unfold effective_tasks. rewrite bool_decide_false by lia.
  simpl. split; [done|].
  split; [apply fill_mapping_keys|].
  split.
  { intros i j Hi. rewrite fill_mapping_lookup by done. simpl.
    rewrite stride_lookup by lia. f_equal. lia. }
  split.
  { intros p i j Hi <-. split.
    - rewrite Nat.add_comm, Nat.Div0.mod_add. by rewrite Nat.mod_small.
    - rewrite Nat.add_comm, Nat.div_add by lia.
      rewrite Nat.div_small by done. done. }
  split; [by apply interleave_fill_mapping|].
  rewrite fill_mapping_values. apply shards_Permutation. lia.
Qed.

End partition_theorems.

Section balance_theorems.
Context {V Fn : Type}.
Implicit Types (args : list V) (st : State V Fn).

Lemma length_shard args (t k : Z) shard :
  PyDict.lookup_key (fill_mapping args t) k = Some shard →
  length shard =
    (length args / Z.to_nat t +
     (if decide (Z.to_nat k < length args mod Z.to_nat t)%nat
      then 1 else 0))%nat.
Proof.
  intros [Hk ->]%fill_mapping_lookup_Some.
  apply length_stride; lia.
Qed.

(** C2. For [1 <= T <= len(A)] the stored mapping has exactly the keys
    [0 .. T-1], the lengths of any two shards differ by at most one,
    and the lengths add up to [len(A)]. *)
Theorem shard_sizes_balanced args st :
  let t := num_tasks (self st) in
  1 ≤ t → t ≤ len args →
  ∃ st' m,
    _create_task2args_mapping args st = (Ok tt, st') ∧
    _task2args_map (self st') = Some m ∧
    PyDict.keys m = range t ∧
    length m = Z.to_nat t ∧
    (∀ i k a b,
       PyDict.lookup_key m i = Some a → PyDict.lookup_key m k = Some b →
       (length a ≤ length b + 1)%nat) ∧
    sum_list (length <$> PyDict.values m) = length args.
Proof.
  intros t Ht Hlen. eexists _, _.
  split; [apply create_mapping_run|].
  fold t. unfold effective_tasks. rewrite bool_decide_false by lia.
  simpl. split; [done|].
  split; [apply fill_mapping_keys|].
  split; [apply length_fill_mapping|].
  split.
  - intros i k a b Ha Hb.
    rewrite (length_shard _ _ _ _ Ha), (length_shard _ _ _ _ Hb).
    repeat case_decide; lia.
  - rewrite fill_mapping_values. apply sum_length_shards. lia.
Qed.

(** C3. When the configured task count exceeds the number of
    arguments, the call sets [num_tasks] to that number, issues one
    warning, and every shard of the mapping it still builds is
    non-empty; otherwise it issues no warning and leaves [num_tasks]
    as it was. *)
Theorem shrink_task_count args st :
  let t := num_tasks (self st) in
  ∃ st' m,
    _create_task2args_mapping args st = (Ok tt, st') ∧
    _task2args_map (self st') = Some m ∧
    (len args < t →
       num_tasks (self st') = len args ∧
       warnings (world st')
         = warnings (world st) ++ [shrink_warning (len args) t] ∧
       PyDict.keys m = range (len args) ∧
       Forall (λ shard, shard ≠ []) (PyDict.values m)) ∧
    (t ≤ len args →
       num_tasks (self st') = t ∧
       warnings (world st') = warnings (world st)).
Proof.
  intros t. eexists _, _.
  split; [apply create_mapping_run|].
  fold t. unfold effective_tasks. simpl. split; [done|]. split.
  - intros Hlt. rewrite !bool_decide_true by done. simpl.
    split; [done|]. split; [done|].
    split; [apply fill_mapping_keys|].
    rewrite fill_mapping_values. unfold shards.
    apply Forall_fmap, Forall_forall. intros i Hi%elem_of_seq. simpl.
    unfold len in *. rewrite Nat2Z.id in *.
    intros Hnil.
    assert (Hj : (0 < length (stride i (length args) args))%nat).
    { apply stride_lt_length; lia. }
    rewrite Hnil in Hj. simpl in Hj. lia.
  - intros Hge. rewrite !bool_decide_false by lia. simpl.
    done.
Qed.
End balance_theorems.

(** ** The generator *)

Section generator_facts.
Context {V Fn : Type} `{!PyValues V, !PyLib Fn}.
Implicit Types (p : Pool V Fn) (st : State V Fn) (w : World).
Implicit Types (f : Fn) (args : list V) (kwargs : list (string * V)).

Lemma create_python_script_run p w :
  create_python_script (mkState p w) =
    match worker_text p with
    | Ok text => (Ok tt, mkState p (python_written p text w))
    | Raise e => (Raise e, mkState p w)
    end.
Proof.
  unfold create_python_script, worker_text.
  unfold mbind, M_bind, bind, gets, raise, lift, modify. simpl.
  destruct (_task_function p) as [f|]; [|done].
  destruct (_task2args_map p) as [[|kv m]|]; [done| |done].
  by destruct (getsource f).
Qed.

Lemma create_slurm_script_run p w :
  create_slurm_script (mkState p w) = (Ok tt, mkState p (slurm_written p w)).
Proof. reflexivity. Qed.

Lemma create_job_run f args kwargs st :
  create_job f args kwargs st =
    let b := bound f args kwargs st in
    match worker_text (self b) with
    | Ok text =>
        (Ok tt,
         mkState (self b)
           (slurm_written (self b) (python_written (self b) text (world b))))
    | Raise e => (Raise e, b)
    end.
Proof.
  cbv zeta. remember (bound f args kwargs st) as b eqn:Hb.
  unfold create_job, mbind, M_bind.
  unfold bind at 1 2 3. simpl.
  rewrite create_mapping_run. simpl.
  unfold bound in Hb. simpl in Hb. rewrite <- Hb.
  destruct b as [p w]. unfold bind. rewrite create_python_script_run.
  simpl. destruct (worker_text p); [|done].
  by rewrite create_slurm_script_run.
Qed.

Lemma effective_tasks_stable (t n : Z) :
  bool_decide (n < effective_tasks t n) = false.
Proof.
  apply bool_decide_false. unfold effective_tasks.
  case_bool_decide; lia.
Qed.

Lemma effective_tasks_idem (t n : Z) :
  effective_tasks (effective_tasks t n) n = effective_tasks t n.
Proof.
  unfold effective_tasks at 1. by rewrite effective_tasks_stable.
Qed.

Lemma effective_tasks_min (t n : Z) : effective_tasks t n = Z.min t n.
Proof. unfold effective_tasks. case_bool_decide; lia. Qed.

Lemma fill_mapping_nonempty args (t : Z) :
  1 ≤ t → fill_mapping args t ≠ [].
Proof.
  intros Ht Hnil. pose proof (length_fill_mapping args t) as Hlen.
  rewrite Hnil in Hlen. simpl in Hlen. lia.
Qed.

Lemma worker_text_bound f args kwargs st src :
  1 ≤ effective_tasks (num_tasks (self st)) (len args) →
  getsource f = Ok src →
  ∃ text, worker_text (self (bound f args kwargs st)) = Ok text.
Proof.
  intros Ht Hsrc. unfold worker_text, bound. simpl.
  pose proof (fill_mapping_nonempty args _ Ht) as Hne.
  destruct (fill_mapping args _) as [|kv m]; [done|].
  rewrite Hsrc. by eexists.
Qed.

(** What [create_job] leaves in the instance does not depend on
    whether the scripts could be written. *)
Lemma create_job_self f args kwargs st :
  self (create_job f args kwargs st).2 = self (bound f args kwargs st).
Proof.
  rewrite create_job_run. cbv zeta.
  by destruct (worker_text (self (bound f args kwargs st))).
Qed.

(** Binding the same function and arguments again changes nothing. *)
Lemma bound_again f args kwargs st w :
  bound f args kwargs (mkState (self (bound f args kwargs st)) w)
    = mkState (self (bound f args kwargs st)) w.
Proof.
  unfold bound. simpl.
  rewrite !effective_tasks_stable, !effective_tasks_idem.
  by destruct (self st).
Qed.

Lemma rewrite_files (a b x y : string) (m : gmap string string) :
  <[b := y]> (<[a := x]> (<[b := y]> (<[a := x]> m)))
    = <[b := y]> (<[a := x]> m).
Proof.
  apply map_eq. intros k. rewrite !lookup_insert.
  repeat case_decide; done.
Qed.

Lemma append_assoc (a b c : string) : (a +:+ b) +:+ c = a +:+ (b +:+ c).
Proof.
  induction a as [|x a IH]; [done|].
  change (String x ((a +:+ b) +:+ c) = String x (a +:+ (b +:+ c))).
  by rewrite IH.
Qed.

Lemma concat_str_app (l1 l2 : list string) :
  concat_str (l1 ++ l2) = concat_str l1 +:+ concat_str l2.
Proof.
  induction l1 as [|x l1 IH]; [done|].
  change (x +:+ concat_str (l1 ++ l2)
          = (x +:+ concat_str l1) +:+ concat_str l2).
  by rewrite IH, append_assoc.
Qed.

(** The descriptor before [textwrap.dedent], written out line by line. *)
Lemma slurm_template_text p (upper : Z) :
  slurm_template p upper = concat_str [
    "        #!/bin/bash"; nl;
    nl;
    "        ## add additional SBATCH directives here"; nl;
    "        #SBATCH --partition="; partition p; nl;
    "        #SBATCH --job-name="; job_name p; nl;
    "        #SBATCH --output="; log_dir p; "/%j.log"; nl;
    "        #SBATCH --time="; time_limit p; nl;
    "        #SBATCH --mem="; mem_limit p; nl;
    "        #SBATCH --cpus-per-task="; pretty (cpus_per_task p); nl;
    "        #SBATCH --mail-type=FAIL"; nl;
    "        #SBATCH --mail-user="; email p; nl;
    "        #SBATCH --array=0-"; pretty upper; nl;
    nl;
    "        # load modules, adjust to your needs"; nl;
    "        ml devel"; nl;
    "        ml python/3.9.0"; nl;
    nl;
    "        # execute the Python code, this should stay as is."; nl;
    "        python3 "; python_script_name p; " ${SLURM_ARRAY_TASK_ID}"; nl;
    "        " ].
Proof.
  unfold slurm_template, slurm_head, slurm_tail, array_directive.
  change ("        #SBATCH --array=0-" +:+ pretty upper +:+ nl)
    with (concat_str [ "        #SBATCH --array=0-"; pretty upper; nl ]).
  by rewrite <- !concat_str_app.
Qed.

(** C4. When [create_job] is given at least one argument, a task
    count of at least one and a function whose source is found, it
    returns normally; the stored mapping has the keys [0] to
    [num_tasks - 1] for the task count left after shrinking, and the
    descriptor it wrote is the dedented text below, whose [--array]
    line runs from 0 to one less than the number of keys of that
    mapping. *)
Theorem descriptor_matches_mapping f args kwargs st src :
  let t := num_tasks (self st) in
  1 ≤ t → args ≠ [] → getsource f = Ok src →
  ∃ st' m,
    create_job f args kwargs st = (Ok tt, st') ∧
    num_tasks (self st') = Z.min t (len args) ∧
    _task2args_map (self st') = Some m ∧
    PyDict.keys m = range (num_tasks (self st')) ∧
    Z.of_nat (length m) = num_tasks (self st') ∧
    array_upper_limit (self st') = Z.of_nat (length m) - 1 ∧
    fs (world st') !! slurm_script_name (self st') =
      Some (dedent (concat_str [
        "        #!/bin/bash"; nl;
        nl;
        "        ## add additional SBATCH directives here"; nl;
        "        #SBATCH --partition="; partition (self st); nl;
        "        #SBATCH --job-name="; job_name (self st); nl;
        "        #SBATCH --output="; log_dir (self st); "/%j.log"; nl;
        "        #SBATCH --time="; time_limit (self st); nl;
        "        #SBATCH --mem="; mem_limit (self st); nl;
        "        #SBATCH --cpus-per-task="; pretty (cpus_per_task (self st)); nl;
        "        #SBATCH --mail-type=FAIL"; nl;
        "        #SBATCH --mail-user="; email (self st); nl;
        "        #SBATCH --array=0-"; pretty (Z.of_nat (length m) - 1); nl;
        nl;
        "        # load modules, adjust to your needs"; nl;
        "        ml devel"; nl;
        "        ml python/3.9.0"; nl;
        nl;
        "        # execute the Python code, this should stay as is."; nl;
        "        python3 "; python_script_name (self st);
          " ${SLURM_ARRAY_TASK_ID}"; nl;
        "        " ])).
Proof.
  intros t Ht Hargs Hsrc.
  assert (Hn : 1 ≤ len args).
  { unfold len. destruct args; [done|]. simpl. lia. }
  set (t' := effective_tasks t (len args)).
  assert (Ht' : 1 ≤ t') by (unfold t'; rewrite effective_tasks_min; lia).
  destruct (worker_text_bound f args kwargs st src Ht' Hsrc) as [text Htext].
  rewrite create_job_run. cbv zeta. rewrite Htext.
  exists (mkState (self (bound f args kwargs st))
            (slurm_written (self (bound f args kwargs st))
               (python_written (self (bound f args kwargs st)) text
                  (world (bound f args kwargs st))))),
         (fill_mapping args t').
  assert (Hsz : Z.of_nat (length (fill_mapping args t')) = t')
    by (rewrite length_fill_mapping; lia).
  split; [done|].
  split; [apply effective_tasks_min|].
  split; [done|].
  split; [apply fill_mapping_keys|].
  split; [done|].
  split; [unfold array_upper_limit; simpl; fold t t'; lia|].
  unfold slurm_written. simpl. rewrite lookup_insert_eq.
  unfold slurm_commands. rewrite slurm_template_text.
  unfold array_upper_limit. simpl. fold t t'. by rewrite Hsz.
Qed.

(** C6. With no task function, or with no mapping, in the instance,
    [create_python_script] raises a [ValueError] and leaves the
    instance and the world, the files among it, as they were. *)
Theorem worker_script_needs_function_and_mapping st :
  _task_function (self st) = None ∨ _task2args_map (self st) = None →
  ∃ msg, create_python_script st = (Raise (ValueError msg), st).
Proof.
  destruct st as [p w]. simpl. rewrite create_python_script_run.
  unfold worker_text. intros [Hf|Hm].
  - rewrite Hf. by eexists.
  - rewrite Hm. destruct (_task_function p); by eexists.
Qed.

(** Two runs in a row. *)
Lemma create_job_twice f args kwargs st :
  let st1 := (create_job f args kwargs st).2 in
  let st2 := (create_job f args kwargs st1).2 in
  (create_job f args kwargs st1).1 = (create_job f args kwargs st).1 ∧
  self st2 = self st1 ∧
  fs (world st2) = fs (world st1) ∧
  (∀ w, fs (world (create_job f args kwargs (mkState (self st1) w)).2)
        = fs (world (create_job f args kwargs (mkState (self st) w)).2)) ∧
  python_script_name (self st1) = python_script_name (self st) ∧
  slurm_script_name (self st1) = slurm_script_name (self st).
Proof.
  cbv zeta. set (b := bound f args kwargs st).
  assert (Hagain : ∀ s, self s = self b →
    create_job f args kwargs s =
      match worker_text (self b) with
      | Ok text =>
          (Ok tt,
           mkState (self b)
             (slurm_written (self b)
                (python_written (self b) text (world s))))
      | Raise e => (Raise e, mkState (self b) (world s))
      end).
  { intros [p w] Hp. change (p = self b) in Hp. subst p.
    rewrite create_job_run. cbv zeta. unfold b. by rewrite bound_again. }
  assert (Hfresh : ∀ w,
    fs (world (create_job f args kwargs (mkState (self st) w)).2) =
      match worker_text (self b) with
      | Ok text =>
          fs (slurm_written (self b) (python_written (self b) text w))
      | Raise e => fs w
      end).
  { intros w. rewrite create_job_run. cbv zeta.
    change (self (bound f args kwargs (mkState (self st) w)))
      with (self b).
    destruct (worker_text (self b)); unfold bound; simpl;
      by case_bool_decide. }
  rewrite (create_job_run f args kwargs st). cbv zeta. fold b.
  destruct (worker_text (self b)) as [text|e] eqn:HT; cbn [fst snd].
  - rewrite Hagain by done. cbn [fst snd self world].
    split; [done|]. split; [done|]. split; [apply rewrite_files|].
    split; [|done].
    intros w. rewrite Hagain by done. by rewrite Hfresh.
  - rewrite (Hagain b eq_refl). cbn [fst snd self world].
    split; [done|]. split; [done|]. split; [done|].
    split; [|done].
    intros w. rewrite Hagain by done. by rewrite Hfresh.
Qed.

(** C9. However often [create_job] is run on the same instance with
    the same function, arguments and keyword arguments, every run ends
    as the first did and leaves the instance and every file as the first
    run left them; after the first run a further one would write the
    same two texts into any file system; the two file names are those
    the instance had before, fixed by the constructor. *)
Theorem regeneration_is_idempotent f args kwargs st (n : nat) :
  let first := create_job f args kwargs st in
  let last := regenerate (S n) f args kwargs st in
  last.1 = first.1 ∧
  self last.2 = self first.2 ∧
  fs (world last.2) = fs (world first.2) ∧
  (∀ w, fs (world (create_job f args kwargs (mkState (self first.2) w)).2)
        = fs (world (create_job f args kwargs (mkState (self st) w)).2)) ∧
  python_script_name (self last.2) = python_script_name (self st) ∧
  slurm_script_name (self last.2) = slurm_script_name (self st).
Proof.
  cbv zeta.
  destruct (create_job_twice f args kwargs st)
    as (_ & _ & _ & Hany & Hpy & Hsl).
  assert (Hn : (regenerate (S n) f args kwargs st).1
                 = (create_job f args kwargs st).1 ∧
               self (regenerate (S n) f args kwargs st).2
                 = self (create_job f args kwargs st).2 ∧
               fs (world (regenerate (S n) f args kwargs st).2)
                 = fs (world (create_job f args kwargs st).2)).
  { induction n as [|n (IHr & IHs & IHf)]; [done|].
    change (regenerate (S (S n)) f args kwargs st)
      with (create_job f args kwargs (regenerate (S n) f args kwargs st).2).
    change (regenerate (S n) f args kwargs st)
      with (create_job f args kwargs (regenerate n f args kwargs st).2) in *.
    destruct (create_job_twice f args kwargs (regenerate n f args kwargs st).2)
      as (Hr & Hs & Hf & _).
    split; [congruence|]. split; congruence. }
  destruct Hn as (Hr & Hs & Hf).
  split; [done|]. split; [done|]. split; [done|]. split; [done|].
  by rewrite Hs.
Qed.

(** C10. Called with no arguments on an instance whose task count is
    not negative, [_create_task2args_mapping] sets [num_tasks] to 0
    and stores the empty dict; [create_python_script] then raises the
    [ValueError] saying that the mapping is not set, and so does
    [create_job], which writes no file. *)
Theorem empty_arguments_never_reach_generation st :
  0 ≤ num_tasks (self st) →
  ∃ st1,
    _create_task2args_mapping [] st = (Ok tt, st1) ∧
    num_tasks (self st1) = 0 ∧
    _task2args_map (self st1) = Some [] ∧
    (∀ f, _task_function (self st) = Some f →
       create_python_script st1
         = (Raise (ValueError mapping_not_set), st1)) ∧
    (∀ f kwargs, ∃ st',
       create_job f [] kwargs st
         = (Raise (ValueError mapping_not_set), st') ∧
       num_tasks (self st') = 0 ∧
       _task2args_map (self st') = Some [] ∧
       fs (world st') = fs (world st)).
Proof.
  intros Ht.
  assert (Heff : effective_tasks (num_tasks (self st)) (len (@nil V)) = 0).
  { unfold effective_tasks, len. simpl. case_bool_decide; lia. }
  eexists. split; [apply create_mapping_run|]. cbv zeta.
  rewrite Heff. simpl. split; [done|]. split; [done|]. split.
  - intros f Hf. rewrite create_python_script_run.
    unfold worker_text. simpl.
    by rewrite Hf.
  - intros f kwargs. eexists. rewrite create_job_run. cbv zeta.
    unfold worker_text, bound. simpl. rewrite Heff. simpl.
    split; [done|]. simpl. split; [done|]. split; [done|].
    by case_bool_decide.
Qed.
End generator_facts.

(** ** The generator over a file system that can fail *)

Section disk_facts.
Context {V Fn : Type} `{!PyValues V, !PyLib Fn, !FileSystem}.
Implicit Types (p : Pool V Fn) (st : State V Fn) (w : World).
Implicit Types (f : Fn) (args : list V) (kwargs : list (string * V)).

Lemma disk_write_run path text st :
  Disk.write path text st =
    match write_outcome path text (fs (world st)) with
    | Written =>
        (Ok tt, mkState (self st) (write_file (resolve path) text (world st)))
    | OpenFails e => (Raise e, st)
    | WriteFails e remains =>
        (Raise e,
         mkState (self st) (write_file (resolve path) remains (world st)))
    end.
Proof. reflexivity. Qed.

Lemma disk_create_slurm_script_run st :
  let name := slurm_script_name (self st) in
  Disk.create_slurm_script st =
    match write_outcome name (slurm_commands (self st)) (fs (world st)) with
    | Written =>
        (Ok tt,
         mkState (self st)
           (logging_info ("SLURM script " +:+ name +:+ " created.")
              (write_file (resolve name) (slurm_commands (self st))
                 (world st))))
    | OpenFails e => (Raise e, st)
    | WriteFails e remains =>
        (Raise e,
         mkState (self st) (write_file (resolve name) remains (world st)))
    end.
Proof.
  cbv zeta. unfold Disk.create_slurm_script, mbind, M_bind, bind, gets.
  rewrite disk_write_run.
  by destruct (write_outcome _ _ _).
Qed.

Lemma disk_create_python_script_run st :
  let name := python_script_name (self st) in
  Disk.create_python_script st =
    match worker_text (self st) with
    | Raise e => (Raise e, st)
    | Ok text =>
        match write_outcome name text (fs (world st)) with
        | Written =>
            (Ok tt,
             mkState (self st)
               (logging_info ("Python script " +:+ name +:+ " created.")
                  (write_file (resolve name) text (world st))))
        | OpenFails e => (Raise e, st)
        | WriteFails e remains =>
            (Raise e,
             mkState (self st) (write_file (resolve name) remains (world st)))
        end
    end.
Proof.
  cbv zeta. unfold Disk.create_python_script, worker_text.
  unfold mbind, M_bind, bind, gets, raise, lift.
  destruct (_task_function (self st)) as [f|]; [|done].
  destruct (_task2args_map (self st)) as [[|kv m]|]; [done| |done].
  destruct (getsource f) as [src|e]; [|done].
  rewrite disk_write_run.
  by destruct (write_outcome _ _ _).
Qed.

Lemma disk_create_job_run f args kwargs st :
  Disk.create_job f args kwargs st =
    match Disk.create_python_script (bound f args kwargs st) with
    | (Ok _, st1) => Disk.create_slurm_script st1
    | (Raise e, st1) => (Raise e, st1)
    end.
Proof.
  remember (bound f args kwargs st) as b eqn:Hb.
  unfold Disk.create_job, mbind, M_bind.
  unfold bind at 1 2 3. simpl.
  rewrite create_mapping_run. simpl.
  unfold bound in Hb. simpl in Hb. rewrite <- Hb.
  unfold bind. by destruct (Disk.create_python_script b) as [[[]|e] st1].
Qed.

(** C5, as the code has it.  [create_slurm_script] makes no check of
    the task function or of the mapping and reads neither: put anything
    in their place and in that of the keyword arguments, set or unset,
    and it ends the same way, leaves the same world and keeps the
    instance; where the file can be written, the call returns normally
    with the descriptor for the current [num_tasks] in it.  The order is
    kept by [create_job] alone: when [create_python_script] raises there,
    that exception is raised with the state it left and the descriptor
    step is not run, and when [create_job] returns normally the function
    is bound and the mapping is not empty.  This holds over any file
    system. *)
Theorem descriptor_step_ignores_binding :
  (∀ st fn m kw,
     let st0 :=
       mkState (set_kwargs kw (set_task2args_map m
                  (set_task_function fn (self st)))) (world st) in
     (Disk.create_slurm_script st0).1 = (Disk.create_slurm_script st).1 ∧
     world (Disk.create_slurm_script st0).2
       = world (Disk.create_slurm_script st).2 ∧
     self (Disk.create_slurm_script st0).2 = self st0) ∧
  (∀ st,
     write_outcome (slurm_script_name (self st)) (slurm_commands (self st))
       (fs (world st)) = Written →
     Disk.create_slurm_script st =
       (Ok tt,
        mkState (self st)
          (logging_info
             ("SLURM script " +:+ slurm_script_name (self st) +:+ " created.")
             (write_file (resolve (slurm_script_name (self st)))
                (dedent (slurm_template (self st) (num_tasks (self st) - 1)))
                (world st))))) ∧
  (∀ f args kwargs st e st1,
     Disk.create_python_script (bound f args kwargs st) = (Raise e, st1) →
     Disk.create_job f args kwargs st = (Raise e, st1)) ∧
  (∀ f args kwargs st st',
     Disk.create_job f args kwargs st = (Ok tt, st') →
     _task_function (self st') = Some f ∧
     ∃ kv m, _task2args_map (self st') = Some (kv :: m)).
Proof.
  split; [|split; [|split]].
  - intros st fn m kw st0. rewrite !disk_create_slurm_script_run.
    cbv zeta. unfold st0. simpl.
    change (slurm_commands (set_kwargs kw (set_task2args_map m
              (set_task_function fn (self st)))))
      with (slurm_commands (self st)).
    by destruct (write_outcome _ _ _).
  - intros st Hw. rewrite disk_create_slurm_script_run. cbv zeta.
    by rewrite Hw.
  - intros f args kwargs st e st1 Hpy.
    by rewrite disk_create_job_run, Hpy.
  - intros f args kwargs st st'.
    rewrite disk_create_job_run, disk_create_python_script_run.
    cbv zeta. unfold worker_text, bound. simpl.
    destruct (fill_mapping _ _) as [|kv m]; [done|].
    destruct (getsource f); [|done].
    destruct (write_outcome _ _ _); [|done|done].
    rewrite disk_create_slurm_script_run. cbv zeta. simpl.
    destruct (write_outcome _ _ _); [|done|done].
    intros [= <-]. simpl. split; [done|]. by eexists _, _.
Qed.
End disk_facts.

(** ** The worker script *)

Section worker_theorems.
Context {V U : Type} `{!PyValues V}.
Context (func : V → list (string * V) → U → U * option exn).
Implicit Types (mapping : list (Z * list V)) (r : Run V U).
Implicit Types (kwargs : option (list (string * V))) (task_id : Z).

Lemma wrapper_step arg rest kwargs :
  wrapper func (arg :: rest) kwargs =
    (call func arg (passed kwargs);; wrapper func rest kwargs).
Proof. simpl. by destruct kwargs as [[|kv d]|]. Qed.




End worker_theorems.

(** ** The worker script, name by name *)

Section script_facts.
Context {V U : Type} `{!PyValues V, !PyInt}.
Context (func : V → list (string * V) → U → U * option exn).
Implicit Types (mapping : list (Z * list V)) (r : Run V U).
Implicit Types (kwargs : option (list (string * V))) (task_id : Z).
Implicit Types (name : string) (argv : list string).

Lemma wrapper_on_task (args_list : list V) kwargs :
  wrapper_on func TaskFunction args_list kwargs = wrapper func args_list kwargs.
Proof.
  induction args_list as [|a l IH]; simpl; [done|]. by rewrite IH.
Qed.

(** A task function whose name is none of the script's own leaves
    every name of the main block with the meaning the template intends:
    the run is the parse of [sys.argv[1]] followed by [worker_main]. *)
Lemma run_script_hygienic name mapping kwargs argv r :
  name ∉ script_names →
  run_script func name mapping kwargs argv r =
    match argv !! 1%nat with
    | None => Some (Raise (IndexError "list index out of range"), r)
    | Some s =>
        match py_int s with
        | None =>
            Some (Raise (ValueError
              ("invalid literal for int() with base 10: " +:+ repr_str s)), r)
        | Some task_id => Some (worker_main func mapping kwargs task_id r)
        end
    end.
Proof.
  intros Hname. unfold script_names in Hname.
  repeat (apply not_elem_of_cons in Hname as [? Hname]).
  unfold run_script, worker_main. cbv zeta.
  unfold load, module_globals, builtins.
  simplify_map_eq.
  destruct (argv !! 1%nat) as [s|]; [|done].
  destruct (py_int s) as [task_id|]; [|done].
  simplify_map_eq.
  rewrite wrapper_on_task.
  by destruct (PyDict.get mapping task_id []).
Qed.
End script_facts.

(** ** Task functions that carry a name of the script *)

(** C7, at a task function named [sys].  [create_job] returns normally
    with two tasks and writes the script below, in which the [def] of
    the task function comes after [import sys] and takes the name over.
    Run for task id 2, which is no key of the mapping, the script stops
    at its first statement, [int(sys.argv[1])], with an
    [AttributeError]; the [ValueError] with the text
    [No arguments found for task_id 2.] is not what it raises. *)
Theorem task_named_sys_hides_missing_shard :
  ∃ st' m,
    create_job task_named_sys [10; 20] [] (mkState pool3 world0)
      = (Ok tt, st') ∧
    _task2args_map (self st') = Some m ∧
    PyDict.lookup_key m 2 = None ∧
    fs (world st') !! python_script_name (self st')
      = Some (concat_str [
          nl;
          "import sys"; nl;
          "import logging"; nl;
          nl;
          "def sys(x, **kwargs):"; nl;
          "    print(x * x)"; nl;
          nl;
          nl;
          nl;
          "def wrapper(func, args_list, kwargs):"; nl;
          "    for arg in args_list:"; nl;
          "        if kwargs:"; nl;
          "            func(arg, **kwargs)"; nl;
          "        else:"; nl;
          "            func(arg)"; nl;
          nl;
          nl;
          "if __name__ == '__main__':"; nl;
          "    task_id = int(sys.argv[1])"; nl;
          "    kwargs = {}"; nl;
          "    mapping = {0: (10,), 1: (20,)}"; nl;
          "    args_list = mapping.get(task_id, [])"; nl;
          "    if not args_list:"; nl;
          "        raise ValueError(f"; dq;
            "No arguments found for task_id {task_id}."; dq; ")"; nl;
          nl;
          "    logging.basicConfig(level=logging.INFO, format='%(asctime)s [%(levelname)s] %(message)s')"; nl;
          "    logging.info(f"; dq;
            "Task {task_id}: Processing arguments {args_list} with kwargs {kwargs}";
            dq; ")"; nl;
          nl;
          "    # Here, we're calling the wrapper function, passing in the task function, arguments, and kwargs for this task"; nl;
          "    wrapper(sys, args_list, kwargs)"; nl;
          "    logging.info(f"; dq; "Task {task_id}: finished successfully.";
            dq; ")"; nl ]) ∧
    @run_script Z (list Z) _ decimal_int records
      (fn_name task_named_sys) m (_kwargs (self st'))
      [python_script_name (self st'); "2"] (mkRun [] [] [])
      = Some (Raise (AttributeError
                "'function' object has no attribute 'argv'"),
              mkRun [] [] []) ∧
    @run_script Z (list Z) _ decimal_int records
      (fn_name task_named_sys) m (_kwargs (self st'))
      [python_script_name (self st'); "2"] (mkRun [] [] [])
      ≠ Some (Raise (ValueError "No arguments found for task_id 2."),
              mkRun [] [] []).
Proof.
  eexists _, _.
  split; [vm_compute; reflexivity|].
  split; [vm_compute; reflexivity|].
  split; [vm_compute; reflexivity|].
  split; [vm_compute; reflexivity|].
  split; [vm_compute; reflexivity|].
  vm_compute. discriminate.
Qed.

(** C8, at a task function named [wrapper] that never raises.
    [create_job] returns normally and writes the script below, in which
    the [def wrapper] of the template comes after the [def] of the task
    function and takes the name over, so that [wrapper(wrapper, ...)]
    hands the template's function to itself.  Run for task 1, whose
    shard is (20, 50), the script logs the arguments and ends with a
    [TypeError] raised by the call on the first value: the task
    function has not been called on any value of the shard. *)
Theorem task_named_wrapper_is_never_called :
  ∃ st' m,
    create_job task_named_wrapper [10; 20; 30; 40; 50] []
      (mkState pool3 world0) = (Ok tt, st') ∧
    _task2args_map (self st') = Some m ∧
    PyDict.lookup_key m 1 = Some [20; 50] ∧
    fs (world st') !! python_script_name (self st')
      = Some (concat_str [
          nl;
          "import sys"; nl;
          "import logging"; nl;
          nl;
          "def wrapper(x, **kwargs):"; nl;
          "    print(x * x)"; nl;
          nl;
          nl;
          nl;
          "def wrapper(func, args_list, kwargs):"; nl;
          "    for arg in args_list:"; nl;
          "        if kwargs:"; nl;
          "            func(arg, **kwargs)"; nl;
          "        else:"; nl;
          "            func(arg)"; nl;
          nl;
          nl;
          "if __name__ == '__main__':"; nl;
          "    task_id = int(sys.argv[1])"; nl;
          "    kwargs = {}"; nl;
          "    mapping = {0: (10, 40), 1: (20, 50), 2: (30,)}"; nl;
          "    args_list = mapping.get(task_id, [])"; nl;
          "    if not args_list:"; nl;
          "        raise ValueError(f"; dq;
            "No arguments found for task_id {task_id}."; dq; ")"; nl;
          nl;
          "    logging.basicConfig(level=logging.INFO, format='%(asctime)s [%(levelname)s] %(message)s')"; nl;
          "    logging.info(f"; dq;
            "Task {task_id}: Processing arguments {args_list} with kwargs {kwargs}";
            dq; ")"; nl;
          nl;
          "    # Here, we're calling the wrapper function, passing in the task function, arguments, and kwargs for this task"; nl;
          "    wrapper(wrapper, args_list, kwargs)"; nl;
          "    logging.info(f"; dq; "Task {task_id}: finished successfully.";
            dq; ")"; nl ]) ∧
    (∀ v kw seen, (records v kw seen).2 = None) ∧
    @run_script Z (list Z) _ decimal_int records
      (fn_name task_named_wrapper) m (_kwargs (self st'))
      [python_script_name (self st'); "1"] (mkRun [] [] [])
      = Some (Raise (TypeError
                "wrapper() missing 2 required positional arguments: 'args_list' and 'kwargs'"),
              mkRun [] []
                [ "Task 1: Processing arguments (20, 50) with kwargs {}" ]).
Proof.
  eexists _, _.
  split; [vm_compute; reflexivity|].
  split; [vm_compute; reflexivity|].
  split; [vm_compute; reflexivity|].
  split; [vm_compute; reflexivity|].
  split; [done|].
  vm_compute. reflexivity.
Qed.

(** * Further properties *)

(** ** More on the partitioner *)

Section partition_more.
Context {V Fn : Type}.
Implicit Types (args : list V) (st : State V Fn).

Lemma stride_sublist (skip step : nat) (l : list V) :
  sublist (stride skip step l) l.
Proof.
  revert skip. induction l as [|x t IH]; intros skip; simpl.
  - constructor.
  - destruct skip as [|k].
    + apply sublist_skip, IH.
    + apply sublist_cons, IH.
Qed.

(** With as many tasks as items, slice [i] is the one item [i]. *)
Lemma stride_whole (l : list V) (i : nat) (x : V) :
  l !! i = Some x → stride i (length l) l = [x].
Proof.
  intros Hx. pose proof (lookup_lt_Some _ _ _ Hx) as Hi.
  apply list_eq. intros j. rewrite stride_lookup by lia.
  destruct j as [|j]; simpl.
  - by rewrite Nat.add_0_r.
  - apply lookup_ge_None. lia.
Qed.

Lemma stored_mapping args st :
  _task2args_map (self (_create_task2args_mapping args st).2)
    = Some (fill_mapping args
              (effective_tasks (num_tasks (self st)) (len args))).
Proof. by rewrite create_mapping_run. Qed.

Lemma stored_num_tasks args st :
  num_tasks (self (_create_task2args_mapping args st).2)
    = effective_tasks (num_tasks (self st)) (len args).
Proof. by rewrite create_mapping_run. Qed.

(** X1. When the configured task count is at least the number of
    arguments, the stored mapping gives task [i] the one-item tuple
    holding argument [i], for every position [i] of the arguments, and
    [num_tasks] ends as the number of arguments. *)
Theorem one_argument_per_task args st :
  len args ≤ num_tasks (self st) →
  let st' := (_create_task2args_mapping args st).2 in
  _task2args_map (self st')
    = Some (imap (λ (i : nat) (x : V), (Z.of_nat i, [x])) args) ∧
  num_tasks (self st') = len args.
Proof.
  intros Hle. cbv zeta. rewrite stored_mapping, stored_num_tasks.
  assert (Heff : effective_tasks (num_tasks (self st)) (len args) = len args)
    by (rewrite effective_tasks_min; lia).
  rewrite Heff. split; [|done]. f_equal.
  rewrite fill_mapping_tabulate. apply list_eq. intros k.
  rewrite list_lookup_fmap, list_lookup_imap. unfold range, len.
  destruct (args !! k) as [x|] eqn:Hx.
  - pose proof (lookup_lt_Some _ _ _ Hx) as Hk.
    rewrite (lookup_seqZ_lt 0 _ k) by lia. simpl.
    unfold slice_from_step. rewrite Nat2Z.id.
    replace (Z.to_nat (0 + Z.of_nat k)) with k by lia.
    rewrite (stride_whole _ _ _ Hx). by rewrite Z.add_0_l.
  - apply lookup_ge_None in Hx.
    rewrite lookup_seqZ_ge by lia. done.
Qed.

(** X2. In the stored mapping the shard of task [k] has
    [len // num_tasks] items, and one more when [k] is below
    [len % num_tasks], for the task count left after the call; so all
    shards have the same length when that count divides the number of
    arguments. *)
Theorem shard_length_formula args st (k : Z) (shard : list V) :
  let st' := (_create_task2args_mapping args st).2 in
  let T := Z.to_nat (num_tasks (self st')) in
  (m ← _task2args_map (self st'); PyDict.lookup_key m k) = Some shard →
  length shard =
    (length args / T +
     (if decide (Z.to_nat k < length args mod T)%nat then 1 else 0))%nat ∧
  ((length args mod T)%nat = 0%nat → length shard = (length args / T)%nat).
Proof.
  cbv zeta. rewrite stored_mapping, stored_num_tasks. simpl.
  intros Hshard. rewrite (length_shard _ _ _ _ Hshard).
  split; [done|]. intros ->. rewrite decide_False by lia. lia.
Qed.

(** X3. Every shard of the stored mapping is a subsequence of the
    arguments: it keeps their order and invents nothing. *)
Theorem shards_keep_order args st (k : Z) (shard : list V) :
  let st' := (_create_task2args_mapping args st).2 in
  (m ← _task2args_map (self st'); PyDict.lookup_key m k) = Some shard →
  sublist shard args.
Proof.
  cbv zeta. rewrite stored_mapping. simpl.
  intros [_ ->]%fill_mapping_lookup_Some. apply stride_sublist.
Qed.

(** X4. The task count never grows back.  After a call with [args1]
    and then a call with [args2] on the same instance, [num_tasks] is
    the least of the configured count and the two lengths, the mapping
    has that many keys, however many arguments the second call brings,
    and the second call warns only when it shrinks the count further. *)
Theorem shrink_is_permanent args1 args2 st :
  let st1 := (_create_task2args_mapping args1 st).2 in
  let st2 := (_create_task2args_mapping args2 st1).2 in
  num_tasks (self st2)
    = Z.min (Z.min (num_tasks (self st)) (len args1)) (len args2) ∧
  num_tasks (self st2) ≤ num_tasks (self st) ∧
  (∃ m, _task2args_map (self st2) = Some m ∧
        PyDict.keys m = range (num_tasks (self st2))) ∧
  (Z.min (num_tasks (self st)) (len args1) ≤ len args2 →
     warnings (world st2) = warnings (world st1)).
Proof.
  cbv zeta. rewrite stored_mapping, !stored_num_tasks, !effective_tasks_min.
  split; [done|]. split; [lia|]. split.
  - eexists. split; [done|]. apply fill_mapping_keys.
  - intros Hle.
    rewrite (create_mapping_run args2). cbv zeta. simpl.
    rewrite stored_num_tasks, effective_tasks_min.
    by rewrite bool_decide_false by lia.
Qed.
End partition_more.

(** ** More on the generator *)

Section generator_more.
Context {V Fn : Type} `{!PyValues V, !PyLib Fn}.
Implicit Types (p : Pool V Fn) (st : State V Fn) (w : World).
Implicit Types (f : Fn) (args : list V) (kwargs : list (string * V)).

Lemma append_inj_l (a x y : string) : a +:+ x = a +:+ y → x = y.
Proof.
  induction a as [|c a IH]; simpl; [done|].
  intros [= H]. by apply IH.
Qed.

Lemma nonempty_len args : args ≠ [] → 1 ≤ len args.
Proof. unfold len. destruct args; [done|]. simpl. lia. Qed.

(** The successful run of [create_job], in closed form. *)
Lemma create_job_ok f args kwargs st src :
  1 ≤ num_tasks (self st) → args ≠ [] → getsource f = Ok src →
  let b := bound f args kwargs st in
  create_job f args kwargs st =
    (Ok tt,
     mkState (self b)
       (slurm_written (self b)
          (python_written (self b)
             (python_code (self b) (dedent src) f
                (fill_mapping args (num_tasks (self b))))
             (world b)))).
Proof.
  intros Ht Hargs Hsrc. cbv zeta. rewrite create_job_run. cbv zeta.
  pose proof (nonempty_len _ Hargs) as Hn.
  unfold worker_text, bound. simpl.
  set (t' := effective_tasks (num_tasks (self st)) (len args)).
  assert (Ht' : 1 ≤ t') by (unfold t'; rewrite effective_tasks_min; lia).
  pose proof (fill_mapping_nonempty args t' Ht') as Hne.
  destruct (fill_mapping args t') as [|kv m] eqn:Hm; [done|].
  by rewrite Hsrc.
Qed.

(** X5. With a task count of zero or less the partitioner warns of
    nothing, leaves [num_tasks] alone and stores the empty dict,
    whatever the arguments; [create_job] then raises the [ValueError]
    that the mapping is not set and leaves the world as it was. *)
Theorem nonpositive_task_count f args kwargs st :
  num_tasks (self st) ≤ 0 →
  (let st1 := (_create_task2args_mapping args st).2 in
   num_tasks (self st1) = num_tasks (self st) ∧
   _task2args_map (self st1) = Some [] ∧
   world st1 = world st) ∧
  ∃ st',
    create_job f args kwargs st = (Raise (ValueError mapping_not_set), st') ∧
    world st' = world st.
Proof.
  intros Ht.
  assert (Hn : 0 ≤ len args) by (unfold len; lia).
  assert (Heff : effective_tasks (num_tasks (self st)) (len args)
                 = num_tasks (self st)) by (rewrite effective_tasks_min; lia).
  assert (Hfill : fill_mapping args (num_tasks (self st)) = []).
  { rewrite fill_mapping_tabulate. unfold range, seqZ.
    by replace (Z.to_nat (num_tasks (self st))) with 0%nat by lia. }
  split.
  - cbv zeta. rewrite create_mapping_run. cbv zeta. simpl.
    rewrite Heff, Hfill, bool_decide_false by lia. done.
  - eexists. rewrite create_job_run. cbv zeta.
    unfold worker_text, bound. simpl. rewrite Heff, Hfill.
    split; [done|]. simpl. by rewrite bool_decide_false by lia.
Qed.

(** X6. Whatever its outcome, [create_job] keeps every field the
    constructor set except [num_tasks], and every file other than the
    two scripts. *)
Theorem create_job_frame f args kwargs st :
  let st' := (create_job f args kwargs st).2 in
  (job_name (self st') = job_name (self st) ∧
   log_dir (self st') = log_dir (self st) ∧
   time_limit (self st') = time_limit (self st) ∧
   mem_limit (self st') = mem_limit (self st) ∧
   email (self st') = email (self st) ∧
   partition (self st') = partition (self st) ∧
   cpus_per_task (self st') = cpus_per_task (self st) ∧
   python_script_name (self st') = python_script_name (self st) ∧
   slurm_script_name (self st') = slurm_script_name (self st)) ∧
  ∀ path,
    path ≠ python_script_name (self st) →
    path ≠ slurm_script_name (self st) →
    fs (world st') !! path = fs (world st) !! path.
Proof.
  cbv zeta. rewrite create_job_run. cbv zeta.
  destruct (worker_text _) as [text|e]; simpl.
  - split; [done|]. intros path Hpy Hsl.
    rewrite !lookup_insert_ne by done. by case_bool_decide.
  - split; [done|]. intros path _ _. by case_bool_decide.
Qed.

(** X7. Left to the constructor, the two script names are the job
    name, an underscore and the uuid, followed by [.slurm] and [.py],
    and so differ; given both names, the constructor does not use the
    uuid. *)
Theorem default_script_names (uid : string) (n : Z)
    (job logs time mem mail queue : string) (cpus : Z) :
  let p := __init__ (V:=V) (Fn:=Fn) uid n job logs time mem mail queue
             None None cpus in
  slurm_script_name p = job +:+ "_" +:+ uid +:+ ".slurm" ∧
  python_script_name p = job +:+ "_" +:+ uid +:+ ".py" ∧
  python_script_name p ≠ slurm_script_name p ∧
  ∀ uid' py sl,
    __init__ (V:=V) (Fn:=Fn) uid n job logs time mem mail queue
      (Some py) (Some sl) cpus
    = __init__ uid' n job logs time mem mail queue (Some py) (Some sl) cpus.
Proof.
  cbv zeta. split; [done|]. split; [done|]. split; [|done]. simpl.
  intros H. do 3 apply append_inj_l in H. discriminate.
Qed.

(** X9. When the instance was given the same name for both scripts
    and [create_job] succeeds, the descriptor is written over the
    worker script: the files afterwards are those from before with the
    descriptor under that name. *)
Theorem same_name_overwrites_worker f args kwargs st src :
  1 ≤ num_tasks (self st) → args ≠ [] → getsource f = Ok src →
  python_script_name (self st) = slurm_script_name (self st) →
  ∃ st',
    create_job f args kwargs st = (Ok tt, st') ∧
    fs (world st')
      = <[slurm_script_name (self st) := slurm_commands (self st')]>
          (fs (world st)).
Proof.
  intros Ht Hargs Hsrc Heq.
  rewrite (create_job_ok _ _ _ _ _ Ht Hargs Hsrc). cbv zeta.
  eexists. split; [done|]. simpl. rewrite Heq, insert_insert_eq.
  by case_bool_decide.
Qed.

(** X18. A pool that was shrunk by one job keeps the smaller array
    for the next: after a successful [create_job] with [args1], a
    [create_job] with [args2] on the same instance succeeds too, and the
    [--array] line of its descriptor runs from 0 to one less than the
    least of the configured count and the two numbers of arguments. *)
Theorem reused_pool_keeps_reduced_array f g args1 args2 kw1 kw2 st src1 src2 :
  1 ≤ num_tasks (self st) → args1 ≠ [] → args2 ≠ [] →
  getsource f = Ok src1 → getsource g = Ok src2 →
  let t := Z.min (Z.min (num_tasks (self st)) (len args1)) (len args2) in
  ∃ st1 st2,
    create_job f args1 kw1 st = (Ok tt, st1) ∧
    create_job g args2 kw2 st1 = (Ok tt, st2) ∧
    num_tasks (self st2) = t ∧
    fs (world st2) !! slurm_script_name (self st)
      = Some (dedent
          (slurm_head (self st)
           +:+ ("        #SBATCH --array=0-" +:+ pretty (t - 1) +:+ nl)
           +:+ slurm_tail (self st))).
Proof.
  intros Ht H1 H2 Hf Hg t.
  pose proof (nonempty_len _ H1) as Hn1.
  pose proof (nonempty_len _ H2) as Hn2.
  rewrite (create_job_ok _ _ _ _ _ Ht H1 Hf). cbv zeta.
  eexists _, _. split; [done|].
  rewrite create_job_ok with (src := src2); [|simpl|done|done].
  - cbv zeta. split; [done|]. simpl.
    rewrite !effective_tasks_min. split; [done|].
    rewrite lookup_insert_eq.
    unfold slurm_commands, array_upper_limit. simpl. done.
  - rewrite effective_tasks_min. lia.
Qed.
End generator_more.

(** ** More on the generator over a file system that can fail *)

Section disk_more.
Context {V Fn : Type} `{!PyValues V, !PyLib Fn, !FileSystem}.
Implicit Types (p : Pool V Fn) (st : State V Fn) (w : World).
Implicit Types (f : Fn) (args : list V) (kwargs : list (string * V)).

(** The worker script [create_job] renders when it gets that far. *)
Lemma bound_worker_text f args kwargs st src :
  1 ≤ num_tasks (self st) → args ≠ [] → getsource f = Ok src →
  let b := bound f args kwargs st in
  worker_text (self b)
    = Ok (python_code (self b) (dedent src) f
            (fill_mapping args (num_tasks (self b)))).
Proof.
  intros Ht Hargs Hsrc. cbv zeta.
  pose proof (nonempty_len _ Hargs) as Hn.
  unfold worker_text, bound. simpl.
  set (t' := effective_tasks (num_tasks (self st)) (len args)).
  assert (Ht' : 1 ≤ t') by (unfold t'; rewrite effective_tasks_min; lia).
  pose proof (fill_mapping_nonempty args t' Ht') as Hne.
  destruct (fill_mapping args t') as [|kv m] eqn:Hm; [done|].
  by rewrite Hsrc.
Qed.

(** The successful run of [create_job] where no write fails, in closed
    form. *)
Lemma disk_create_job_ok f args kwargs st src :
  1 ≤ num_tasks (self st) → args ≠ [] → getsource f = Ok src →
  (∀ path text files, write_outcome path text files = Written) →
  let b := bound f args kwargs st in
  let py := python_script_name (self st) in
  let sl := slurm_script_name (self st) in
  Disk.create_job f args kwargs st =
    (Ok tt,
     mkState (self b)
       (logging_info ("SLURM script " +:+ sl +:+ " created.")
          (write_file (resolve sl) (slurm_commands (self b))
             (logging_info ("Python script " +:+ py +:+ " created.")
                (write_file (resolve py)
                   (python_code (self b) (dedent src) f
                      (fill_mapping args (num_tasks (self b))))
                   (world b)))))).
Proof.
  intros Ht Hargs Hsrc Hw. cbv zeta.
  rewrite disk_create_job_run, disk_create_python_script_run. cbv zeta.
  rewrite (bound_worker_text _ _ _ _ _ Ht Hargs Hsrc). cbv zeta.
  rewrite Hw. rewrite disk_create_slurm_script_run. cbv zeta.
  by rewrite Hw.
Qed.

(** X8. When the two script paths name different files and no write
    fails, a [create_job] with a task count of at least one, at least
    one argument and a function whose source is found leaves both files:
    the worker script, which is the text below with the dedented source,
    the keyword arguments and the stored mapping in it, and the
    descriptor; the log has gained the two records of their creation, in
    that order. *)
Theorem both_artifacts_written f args kwargs st src :
  1 ≤ num_tasks (self st) → args ≠ [] → getsource f = Ok src →
  (∀ path text files, write_outcome path text files = Written) →
  resolve (python_script_name (self st))
    ≠ resolve (slurm_script_name (self st)) →
  ∃ st' m,
    Disk.create_job f args kwargs st = (Ok tt, st') ∧
    _task2args_map (self st') = Some m ∧
    fs (world st') !! resolve (python_script_name (self st))
      = Some (concat_str [
          nl;
          "import sys"; nl;
          "import logging"; nl;
          nl;
          dedent src; nl;
          nl;
          dedent (concat_str [
            nl;
            "def wrapper(func, args_list, kwargs):"; nl;
            "    for arg in args_list:"; nl;
            "        if kwargs:"; nl;
            "            func(arg, **kwargs)"; nl;
            "        else:"; nl;
            "            func(arg)"; nl ]); nl;
          nl;
          "if __name__ == '__main__':"; nl;
          "    task_id = int(sys.argv[1])"; nl;
          "    kwargs = "; str_kwargs (Some kwargs); nl;
          "    mapping = "; str_mapping m; nl;
          "    args_list = mapping.get(task_id, [])"; nl;
          "    if not args_list:"; nl;
          "        raise ValueError(f"; dq;
            "No arguments found for task_id {task_id}."; dq; ")"; nl;
          nl;
          "    logging.basicConfig(level=logging.INFO, format='%(asctime)s [%(levelname)s] %(message)s')"; nl;
          "    logging.info(f"; dq;
            "Task {task_id}: Processing arguments {args_list} with kwargs {kwargs}";
            dq; ")"; nl;
          nl;
          "    # Here, we're calling the wrapper function, passing in the task function, arguments, and kwargs for this task"; nl;
          "    wrapper("; fn_name f; ", args_list, kwargs)"; nl;
          "    logging.info(f"; dq; "Task {task_id}: finished successfully.";
            dq; ")"; nl ]) ∧
    fs (world st') !! resolve (slurm_script_name (self st))
      = Some (slurm_commands (self st')) ∧
    log (world st') = log (world st) ++ [
      "Python script " +:+ python_script_name (self st) +:+ " created.";
      "SLURM script " +:+ slurm_script_name (self st) +:+ " created." ].
Proof.
  intros Ht Hargs Hsrc Hw Hne.
  rewrite (disk_create_job_ok _ _ _ _ _ Ht Hargs Hsrc Hw). cbv zeta.
  eexists _, _. split; [done|]. simpl. split; [done|].
  rewrite lookup_insert_ne by done. rewrite !lookup_insert_eq.
  split; [done|]. split; [done|].
  rewrite <- app_assoc. simpl. by case_bool_decide.
Qed.

(** X17. [create_python_script] makes its checks before it opens the
    file, on any file system: with no task function it raises the
    [ValueError] about the function, also when the mapping is missing
    too; with a function and no mapping, or an empty one, the
    [ValueError] about the mapping; and when the source of the function
    cannot be read, what [inspect.getsource] raised; each time the
    instance and the world are exactly as before.  Once the text is
    rendered: if the file cannot be opened, that exception is raised and
    nothing has changed; if the write fails after the file was opened,
    the exception is raised with the file holding what the failed write
    left, and no record of a creation is logged. *)
Theorem worker_script_checks_precede_write st :
  (_task_function (self st) = None →
     Disk.create_python_script st =
       (Raise (ValueError
          "Task function not set. Use the set_task_function method to set it."),
        st)) ∧
  (∀ f,
     _task_function (self st) = Some f →
     _task2args_map (self st) = None ∨ _task2args_map (self st) = Some [] →
     Disk.create_python_script st =
       (Raise (ValueError
          "Arguments mapping not set. Please ensure you run _create_task2args_mapping before creating the script."),
        st)) ∧
  (∀ f e kv m,
     _task_function (self st) = Some f →
     _task2args_map (self st) = Some (kv :: m) →
     getsource f = Raise e →
     Disk.create_python_script st = (Raise e, st)) ∧
  (∀ f src kv m e,
     _task_function (self st) = Some f →
     _task2args_map (self st) = Some (kv :: m) →
     getsource f = Ok src →
     write_outcome (python_script_name (self st))
       (python_code (self st) (dedent src) f (kv :: m)) (fs (world st))
       = OpenFails e →
     Disk.create_python_script st = (Raise e, st)) ∧
  (∀ f src kv m e remains,
     _task_function (self st) = Some f →
     _task2args_map (self st) = Some (kv :: m) →
     getsource f = Ok src →
     write_outcome (python_script_name (self st))
       (python_code (self st) (dedent src) f (kv :: m)) (fs (world st))
       = WriteFails e remains →
     Disk.create_python_script st =
       (Raise e,
        mkState (self st)
          (mkWorld
             (<[resolve (python_script_name (self st)) := remains]>
                (fs (world st)))
             (warnings (world st)) (log (world st))))).
Proof.
  rewrite disk_create_python_script_run. cbv zeta. unfold worker_text.
  split; [|split; [|split; [|split]]].
  - by intros ->.
  - by intros f -> [-> | ->].
  - by intros f e kv m -> -> ->.
  - by intros f src kv m e -> -> -> ->.
  - by intros f src kv m e remains -> -> -> ->.
Qed.

(** X19. When the worker script can be written and the descriptor
    cannot be opened, [create_job] raises what [open] raised, after the
    worker script was written: the file of the worker script holds the
    rendered text, the log ends with the record of its creation, and the
    instance has the function bound. *)
Theorem descriptor_failure_leaves_worker_script f args kwargs st src e :
  1 ≤ num_tasks (self st) → args ≠ [] → getsource f = Ok src →
  (∀ text files,
     write_outcome (python_script_name (self st)) text files = Written) →
  (∀ text files,
     write_outcome (slurm_script_name (self st)) text files = OpenFails e) →
  ∃ st' text,
    Disk.create_job f args kwargs st = (Raise e, st') ∧
    worker_text (self st') = Ok text ∧
    fs (world st')
      = <[resolve (python_script_name (self st)) := text]> (fs (world st)) ∧
    last (log (world st'))
      = Some ("Python script " +:+ python_script_name (self st)
              +:+ " created.") ∧
    _task_function (self st') = Some f.
Proof.
  intros Ht Hargs Hsrc Hpy Hsl.
  pose proof (bound_worker_text f args kwargs st src Ht Hargs Hsrc) as Htext.
  cbv zeta in Htext.
  rewrite disk_create_job_run, disk_create_python_script_run. cbv zeta.
  rewrite Htext.
  change (python_script_name (self (bound f args kwargs st)))
    with (python_script_name (self st)).
  rewrite Hpy. rewrite disk_create_slurm_script_run. cbv zeta.
  change (slurm_script_name (self (bound f args kwargs st)))
    with (slurm_script_name (self st)).
  cbn [self world fs]. rewrite Hsl.
  eexists _, _. split; [done|]. cbn [self world].
  split; [exact Htext|]. split.
  - unfold bound. simpl. by case_bool_decide.
  - split; [|done]. unfold logging_info. cbn [log]. by rewrite last_snoc.
Qed.

(** X20. When the two script paths name one file and no write fails,
    a successful [create_job] leaves that one file, holding the
    descriptor: the worker script has been written over. *)
Theorem aliased_names_leave_one_file f args kwargs st src :
  1 ≤ num_tasks (self st) → args ≠ [] → getsource f = Ok src →
  (∀ path text files, write_outcome path text files = Written) →
  resolve (python_script_name (self st))
    = resolve (slurm_script_name (self st)) →
  ∃ st',
    Disk.create_job f args kwargs st = (Ok tt, st') ∧
    fs (world st')
      = <[resolve (slurm_script_name (self st)) := slurm_commands (self st')]>
          (fs (world st)).
Proof.
  intros Ht Hargs Hsrc Hw Heq.
  rewrite (disk_create_job_ok _ _ _ _ _ Ht Hargs Hsrc Hw). cbv zeta.
  eexists. split; [done|]. simpl. rewrite Heq, insert_insert_eq.
  by case_bool_decide.
Qed.

End disk_more.

(** ** The worker script on the stored mapping *)

Section pipeline_more.
Context {V Fn U : Type} `{!PyValues V, !PyLib Fn}.
Context (func : V → list (string * V) → U → U * option exn).
Implicit Types (st : State V Fn) (r : Run V U).
Implicit Types (f : Fn) (args : list V).
Implicit Types (kwargs : option (list (string * V))) (task_id : Z).


(** Whatever the task function does, [wrapper] has called it on a
    prefix of the values, in order. *)
Lemma wrapper_prefix kwargs (vs : list V) r :
  ∃ k : nat,
    (k ≤ length vs)%nat ∧
    calls (wrapper func vs kwargs r).2
      = calls r ++ called (passed kwargs) (take k vs) ∧
    run_log (wrapper func vs kwargs r).2 = run_log r ∧
    ((wrapper func vs kwargs r).1 = Ok tt → k = length vs).
Proof.
  revert r. induction vs as [|v vs IH]; intros r.
  - exists 0%nat. simpl. unfold called. simpl. by rewrite app_nil_r.
  - rewrite wrapper_step. unfold mbind, M_bind, bind, call.
    destruct (func v (passed kwargs) (user r)) as [u [e|]] eqn:Hv; simpl.
    + exists 1%nat. simpl. split; [lia|]. done.
    + destruct (IH (mkRun u (calls r ++ [(v, passed kwargs)]) (run_log r)))
        as (k & Hk & Hcalls & Hlog & Hok).
      exists (S k). simpl. split; [lia|].
      rewrite Hcalls, Hlog. simpl. rewrite <- app_assoc.
      split; [done|]. split; [done|]. intros H. by rewrite (Hok H).
Qed.



(** Whatever the task function does, the block with its names
    resolved has called it, when it stops, on a prefix of the shard. *)
Lemma worker_main_prefix (mapping : list (Z * list V)) kwargs
    task_id r :
  let shard := PyDict.get mapping task_id [] in
  let res := worker_main func mapping kwargs task_id r in
  ∃ k : nat,
    (k ≤ length shard)%nat ∧
    calls res.2 = calls r ++ called (passed kwargs) (take k shard) ∧
    (res.1 = Ok tt → k = length shard ∧ shard ≠ []).
Proof.
  cbv zeta. unfold worker_main.
  destruct (PyDict.get mapping task_id []) as [|v vs] eqn:Hs.
  - exists 0%nat. simpl. unfold raise, called. simpl.
    rewrite app_nil_r. done.
  - rewrite <- Hs. set (shard := PyDict.get mapping task_id []).
    unfold mbind, M_bind, bind, info, modify. cbn [fst snd].
    match goal with
    | |- context [wrapper func shard kwargs ?r0] =>
        destruct (wrapper_prefix kwargs shard r0)
          as (k & Hk & Hcalls & _ & Hok);
        destruct (wrapper func shard kwargs r0) as [[[]|e] r1] eqn:Hw
    end; simpl in *.
    + exists k. split; [done|]. split; [done|]. intros _.
      split; [by apply Hok|]. unfold shard. by rewrite Hs.
    + exists k. split; [done|]. split; [done|]. done.
Qed.


End pipeline_more.

(** ** The worker script run by name *)

Section script_more.
Context {V Fn U : Type} `{!PyValues V, !PyLib Fn, !PyInt}.
Context (func : V → list (string * V) → U → U * option exn).
Implicit Types (st : State V Fn) (r : Run V U).
Implicit Types (f : Fn) (args : list V) (name : string).
Implicit Types (kwargs : option (list (string * V))) (task_id : Z).
Implicit Types (mapping : list (Z * list V)) (argv : list string).

(** X10. For a task function whose name is none of the names the
    script uses itself, and whatever that function does and whatever
    the command line is: when the script stops, the calls it has made
    are the first so many values of the shard of the task id given as
    [sys.argv[1]], in shard order and each with the same keyword
    arguments; it skips none, repeats none and calls nothing else, and
    it ends normally only after the whole of a non-empty shard.  With
    no [sys.argv[1]], or one that [int] rejects, it raises without a
    call. *)
Theorem worker_calls_are_a_prefix name mapping kwargs argv r :
  name ∉ script_names →
  ∃ res,
    run_script func name mapping kwargs argv r = Some res ∧
    match argv !! 1%nat ≫= py_int with
    | Some task_id =>
        let shard := PyDict.get mapping task_id [] in
        ∃ k : nat,
          (k ≤ length shard)%nat ∧
          calls res.2 = calls r ++ called (passed kwargs) (take k shard) ∧
          (res.1 = Ok tt → k = length shard ∧ shard ≠ [])
    | None => ∃ e, res = (Raise e, r)
    end.
Proof.
  intros Hname. rewrite (run_script_hygienic _ _ _ _ _ _ Hname).
  destruct (argv !! 1%nat) as [s|]; simpl.
  - destruct (py_int s) as [task_id|].
    + eexists. split; [done|].
      apply (worker_main_prefix func mapping kwargs task_id r).
    + eexists. split; [done|]. by eexists.
  - eexists. split; [done|]. by eexists.
Qed.





End script_more.

(** ** The submission driver *)

Section submission_more.
Context {V Fn : Type} `{!PyValues V, !PyLib Fn, !Scheduler}.
Implicit Types (cl : Cluster V Fn) (st : State V Fn).
Implicit Types (f : Fn) (args : list V) (kwargs : list (string * V)).

Lemma submit_job_run cl :
  let p := self (node cl) in
  let files := fs (world (node cl)) in
  let subs := submissions cl ++ [(slurm_script_name p, files)] in
  submit_job cl =
    match sbatch (slurm_script_name p) files with
    | Some e => (Raise e, mkCluster (node cl) subs)
    | None =>
        (Ok tt,
         mkCluster (on_world (logging_info (submitted_record p)) (node cl))
           subs)
    end.
Proof.
  cbv zeta. unfold submit_job, mbind, M_bind, bind, gets, modify. simpl.
  by destruct (sbatch _ _).
Qed.

Lemma create_submit_job_run f args kwargs cl :
  create_submit_job f args kwargs cl =
    match create_job f args kwargs (node cl) with
    | (Ok _, st') => submit_job (mkCluster st' (submissions cl))
    | (Raise e, st') => (Raise e, mkCluster st' (submissions cl))
    end.
Proof.
  unfold create_submit_job, mbind, M_bind, bind, in_node.
  by destruct (create_job f args kwargs (node cl)) as [[[]|e] st'].
Qed.

(** X13. [submit_job] checks nothing and changes no file: on any
    instance, whether or not the descriptor exists, it runs [sbatch]
    once on the descriptor's name with the files as they are, keeps the
    instance, the files and the warnings, and logs the submission only
    when [sbatch] succeeded; when [sbatch] fails, its exception is
    raised. *)
Theorem submit_job_runs_sbatch_once cl :
  let res := submit_job cl in
  submissions res.2
    = submissions cl
      ++ [(slurm_script_name (self (node cl)), fs (world (node cl)))] ∧
  self (node res.2) = self (node cl) ∧
  fs (world (node res.2)) = fs (world (node cl)) ∧
  warnings (world (node res.2)) = warnings (world (node cl)) ∧
  match sbatch (slurm_script_name (self (node cl))) (fs (world (node cl))) with
  | Some e => res.1 = Raise e ∧ log (world (node res.2)) = log (world (node cl))
  | None =>
      res.1 = Ok tt ∧
      log (world (node res.2))
        = log (world (node cl)) ++ [submitted_record (self (node cl))]
  end.
Proof.
  cbv zeta. rewrite submit_job_run. cbv zeta.
  by destruct (sbatch _ _).
Qed.


(** X15. When [create_job] succeeds and [sbatch] accepts the
    descriptor, [create_submit_job] returns normally after one run of
    [sbatch], made on the descriptor's name once both scripts were
    written: the files it found hold the descriptor whose [--array]
    line runs from 0 to one less than the least of the configured task
    count and the number of arguments, and the log ends with the record
    of the submission. *)
Theorem submitted_descriptor_is_current f args kwargs cl src :
  let st := node cl in
  1 ≤ num_tasks (self st) → args ≠ [] → getsource f = Ok src →
  (∀ files, sbatch (slurm_script_name (self st)) files = None) →
  ∃ cl' files,
    create_submit_job f args kwargs cl = (Ok tt, cl') ∧
    submissions cl' = submissions cl ++ [(slurm_script_name (self st), files)] ∧
    files = fs (world (node cl')) ∧
    files !! slurm_script_name (self st)
      = Some (dedent
          (slurm_head (self st)
           +:+ ("        #SBATCH --array=0-"
                +:+ pretty (Z.min (num_tasks (self st)) (len args) - 1)
                +:+ nl)
           +:+ slurm_tail (self st))) ∧
    self (node cl') = self (create_job f args kwargs st).2 ∧
    last (log (world (node cl'))) = Some (submitted_record (self st)).
Proof.
  intros st Ht Hargs Hsrc Hacc.
  rewrite create_submit_job_run. fold st.
  rewrite (create_job_ok _ _ _ _ _ Ht Hargs Hsrc). cbv zeta.
  rewrite submit_job_run. cbv zeta. simpl. rewrite Hacc.
  eexists _, _. split; [done|]. simpl.
  split; [done|]. split; [done|].
  rewrite lookup_insert_eq. split.
  - unfold slurm_commands, array_upper_limit. simpl.
    by rewrite effective_tasks_min.
  - split; [done|]. unfold submitted_record. simpl.
    by rewrite last_snoc.
Qed.

(** X16. When [create_job] succeeds and [sbatch] fails, the
    exception of [sbatch] is raised after that one run; the instance
    and the world are as [create_job] left them, so both scripts stay
    written and nothing records a submission. *)
Theorem rejected_submission_keeps_artifacts f args kwargs cl src e :
  let st := node cl in
  1 ≤ num_tasks (self st) → args ≠ [] → getsource f = Ok src →
  (∀ files, sbatch (slurm_script_name (self st)) files = Some e) →
  ∃ st',
    create_job f args kwargs st = (Ok tt, st') ∧
    create_submit_job f args kwargs cl
      = (Raise e,
         mkCluster st'
           (submissions cl
            ++ [(slurm_script_name (self st), fs (world st'))])).
Proof.
  intros st Ht Hargs Hsrc Hrej.
  rewrite create_submit_job_run. fold st.
  rewrite (create_job_ok _ _ _ _ _ Ht Hargs Hsrc). cbv zeta.
  eexists. split; [done|].
  rewrite submit_job_run. cbv zeta. simpl. by rewrite Hrej.
Qed.
End submission_more.

(** ** Concrete runs *)

Example slice_offset_1_step_3 :
  slice_from_step [0; 1; 2; 3; 4; 5; 6] 1 3 = [1; 4].
Proof. reflexivity. Qed.

(** Three tasks, five arguments. *)
Example mapping_3_tasks_5_arguments :
  fill_mapping [10; 20; 30; 40; 50] 3
    = [(0, [10; 40]); (1, [20; 50]); (2, [30])].
Proof. reflexivity. Qed.

(** Five tasks, two arguments: one warning, two tasks left. *)
Example mapping_5_tasks_2_arguments :
  let st' := (_create_task2args_mapping [1; 2]
                (mkState (set_num_tasks 5 pool3) world0)).2 in
  num_tasks (self st') = 2 ∧
  _task2args_map (self st') = Some [(0, [1]); (1, [2])] ∧
  warnings (world st') = [shrink_warning 2 5].
Proof. repeat split. Qed.

Example str_mapping_3_tasks :
  str_mapping [(0, [10; 40]); (1, [20; 50]); (2, [30])]
    = "{0: (10, 40), 1: (20, 50), 2: (30,)}".
Proof. reflexivity. Qed.

Example dedent_text_source :
  dedent_text (concat_str [ "    def square(x, **kwargs):"; nl;
                            "        print(x * x)"; nl ])
    = concat_str [ "def square(x, **kwargs):"; nl;
                   "    print(x * x)"; nl ].
Proof. reflexivity. Qed.

(** ** The theorems at concrete inputs *)

Lemma partition_reconstructs_witness :
  ∃ st' m,
    _create_task2args_mapping [10; 20; 30; 40; 50] (mkState pool3 world0)
      = (Ok tt, st') ∧
    _task2args_map (self st') = Some m ∧
    interleave m = Some [10; 20; 30; 40; 50].
Proof.
  destruct (partition_reconstructs [10; 20; 30; 40; 50] (mkState pool3 world0))
    as (st' & m & Hrun & Hm & _ & _ & _ & Hint & _).
  - simpl. lia.
  - unfold len. simpl. lia.
  - exists st', m. auto.
Defined.

Lemma shard_sizes_balanced_witness :
  ∃ st' m,
    _create_task2args_mapping [10; 20; 30; 40; 50] (mkState pool3 world0)
      = (Ok tt, st') ∧
    _task2args_map (self st') = Some m ∧
    sum_list (length <$> PyDict.values m) = 5%nat.
Proof.
  destruct (shard_sizes_balanced [10; 20; 30; 40; 50] (mkState pool3 world0))
    as (st' & m & Hrun & Hm & _ & _ & _ & Hsum).
  - simpl. lia.
  - unfold len. simpl. lia.
  - exists st', m. auto.
Defined.

Lemma shrink_task_count_witness :
  ∃ st',
    _create_task2args_mapping [1; 2] (mkState (set_num_tasks 5 pool3) world0)
      = (Ok tt, st') ∧
    num_tasks (self st') = 2 ∧
    length (warnings (world st')) = 1%nat.
Proof.
  destruct (shrink_task_count [1; 2] (mkState (set_num_tasks 5 pool3) world0))
    as (st' & m & Hrun & Hm & Hshrink & _).
  destruct Hshrink as (Hn & Hw & _).
  - unfold len. simpl. lia.
  - exists st'. split; [done|]. split; [done|]. by rewrite Hw.
Defined.

Lemma descriptor_matches_mapping_witness :
  ∃ st' m,
    create_job square [1; 2] [("a", 1)] (mkState pool5 world0) = (Ok tt, st') ∧
    _task2args_map (self st') = Some m ∧
    PyDict.keys m = [0; 1] ∧
    fs (world st') !! "job_6fa459ea-ee8a-4ca4-894e-db77e160355e.slurm"
      = Some (concat_str [
          "#!/bin/bash"; nl;
          nl;
          "## add additional SBATCH directives here"; nl;
          "#SBATCH --partition=owners"; nl;
          "#SBATCH --job-name=job"; nl;
          "#SBATCH --output=logs/%j.log"; nl;
          "#SBATCH --time=00:10:00"; nl;
          "#SBATCH --mem=1G"; nl;
          "#SBATCH --cpus-per-task=1"; nl;
          "#SBATCH --mail-type=FAIL"; nl;
          "#SBATCH --mail-user=me@example.org"; nl;
          "#SBATCH --array=0-1"; nl;
          nl;
          "# load modules, adjust to your needs"; nl;
          "ml devel"; nl;
          "ml python/3.9.0"; nl;
          nl;
          "# execute the Python code, this should stay as is."; nl;
          "python3 job_6fa459ea-ee8a-4ca4-894e-db77e160355e.py ${SLURM_ARRAY_TASK_ID}";
          nl ]).
Proof.
  destruct (descriptor_matches_mapping square [1; 2] [("a", 1)]
              (mkState pool5 world0)
              (concat_str [ "    def square(x, **kwargs):"; nl;
                            "        print(x * x)"; nl ]))
    as (st' & m & Hrun & Hn & Hm & Hkeys & Hlen & _ & Hfile).
  - simpl. lia.
  - done.
  - reflexivity.
  - exists st', m. split; [done|]. split; [done|].
    assert (Hl : Z.of_nat (length m) = 2) by (by rewrite Hlen, Hn).
    split; [by rewrite Hkeys, Hn|].
    assert (Hname : slurm_script_name (self st')
                    = "job_6fa459ea-ee8a-4ca4-894e-db77e160355e.slurm").
    { replace st' with (create_job square [1; 2] [("a", 1)]
                          (mkState pool5 world0)).2 by (by rewrite Hrun).
      reflexivity. }
    rewrite <- Hname, Hfile, Hl. reflexivity.
Defined.

(** C5, counterexample. On an instance fresh from the constructor, with
    no function and no mapping, [create_slurm_script] returns normally
    and the descriptor is in the file system. *)
Lemma descriptor_without_function_or_mapping :
  _task_function pool3 = None ∧
  _task2args_map pool3 = None ∧
  (create_slurm_script (mkState pool3 world0)).1 = Ok tt ∧
  fs (world (create_slurm_script (mkState pool3 world0)).2) !! "job_6fa459ea-ee8a-4ca4-894e-db77e160355e.slurm"
    = Some (concat_str [
        "#!/bin/bash"; nl;
        nl;
        "## add additional SBATCH directives here"; nl;
        "#SBATCH --partition=owners"; nl;
        "#SBATCH --job-name=job"; nl;
        "#SBATCH --output=logs/%j.log"; nl;
        "#SBATCH --time=00:10:00"; nl;
        "#SBATCH --mem=1G"; nl;
        "#SBATCH --cpus-per-task=1"; nl;
        "#SBATCH --mail-type=FAIL"; nl;
        "#SBATCH --mail-user=me@example.org"; nl;
        "#SBATCH --array=0-2"; nl;
        nl;
        "# load modules, adjust to your needs"; nl;
        "ml devel"; nl;
        "ml python/3.9.0"; nl;
        nl;
        "# execute the Python code, this should stay as is."; nl;
        "python3 job_6fa459ea-ee8a-4ca4-894e-db77e160355e.py ${SLURM_ARRAY_TASK_ID}"; nl ]).
Proof. repeat split; vm_compute; reflexivity. Qed.

Lemma descriptor_step_ignores_binding_witness :
  (@Disk.create_slurm_script Z PyFunction _ plain_files
     (mkState pool3 world0)).1 = Ok tt ∧
  _task_function
    (self (@Disk.create_job Z PyFunction _ _ plain_files square [1; 2] []
             (mkState pool3 world0)).2) = Some square.
Proof.
  destruct (@descriptor_step_ignores_binding Z PyFunction _ _ plain_files)
    as (_ & Hwritten & _ & Hjob).
  split.
  - rewrite Hwritten; reflexivity.
  - destruct (Hjob square [1; 2] [] (mkState pool3 world0)
               (@Disk.create_job Z PyFunction _ _ plain_files square [1; 2] []
                  (mkState pool3 world0)).2) as [Hf _].
    + vm_compute. reflexivity.
    + exact Hf.
Defined.

Lemma worker_script_needs_function_and_mapping_witness :
  ∃ msg,
    create_python_script (mkState pool3 world0)
      = (Raise (ValueError msg), mkState pool3 world0).
Proof.
  apply (worker_script_needs_function_and_mapping (mkState pool3 world0)).
  left. reflexivity.
Defined.

Lemma empty_arguments_never_reach_generation_witness :
  ∃ st1 st',
    _create_task2args_mapping [] (mkState pool3 world0) = (Ok tt, st1) ∧
    num_tasks (self st1) = 0 ∧
    _task2args_map (self st1) = Some [] ∧
    create_job square [] [("a", 1)] (mkState pool3 world0)
      = (Raise (ValueError mapping_not_set), st') ∧
    fs (world st') = ∅.
Proof.
  destruct (empty_arguments_never_reach_generation (mkState pool3 world0))
    as (st1 & Hrun & Hn & Hm & _ & Hjob).
  - simpl. lia.
  - destruct (Hjob square [("a", 1)]) as (st' & Hraise & _ & _ & Hfs).
    exists st1, st'. auto.
Defined.

(** ** The further properties at concrete inputs *)

Lemma one_argument_per_task_witness :
  _task2args_map (self (_create_task2args_mapping [1; 2]
                          (mkState pool5 world0)).2)
    = Some [(0, [1]); (1, [2])].
Proof.
  destruct (one_argument_per_task [1; 2] (mkState pool5 world0)) as [Hm _].
  - unfold len. simpl. lia.
  - exact Hm.
Defined.

Lemma shard_length_formula_witness : length [20; 50] = 2%nat.
Proof.
  destruct (shard_length_formula [10; 20; 30; 40; 50] (mkState pool3 world0)
              1 [20; 50]) as [Hlen _].
  - reflexivity.
  - exact Hlen.
Defined.

Lemma shards_keep_order_witness : sublist [20; 50] [10; 20; 30; 40; 50].
Proof.
  apply (shards_keep_order [10; 20; 30; 40; 50] (mkState pool3 world0) 1).
  reflexivity.
Defined.

Lemma shrink_is_permanent_witness :
  num_tasks (self (_create_task2args_mapping [1; 2; 3; 4; 5; 6]
                     (_create_task2args_mapping [1; 2]
                        (mkState pool5 world0)).2).2) = 2.
Proof.
  destruct (shrink_is_permanent [1; 2] [1; 2; 3; 4; 5; 6]
              (mkState pool5 world0)) as (Hn & _).
  exact Hn.
Defined.

Lemma nonpositive_task_count_witness :
  ∃ st',
    create_job square [1; 2; 3] [] (mkState pool0 world0)
      = (Raise (ValueError mapping_not_set), st') ∧
    world st' = world0.
Proof.
  destruct (nonpositive_task_count square [1; 2; 3] []
              (mkState pool0 world0)) as [_ Hjob].
  - simpl. lia.
  - exact Hjob.
Defined.

Lemma create_job_frame_witness :
  fs (world (create_job square [1; 2] [] (mkState pool3 world_notes)).2)
    !! "notes.txt" = Some "keep".
Proof.
  destruct (create_job_frame square [1; 2] [] (mkState pool3 world_notes))
    as [_ Hfiles].
  rewrite (Hfiles "notes.txt"); [reflexivity | done | done].
Defined.

Lemma default_script_names_witness :
  python_script_name pool3 ≠ slurm_script_name pool3.
Proof.
  apply (default_script_names (V:=Z) (Fn:=PyFunction)
           "6fa459ea-ee8a-4ca4-894e-db77e160355e"
           3 "job" "logs" "00:10:00" "1G" "me@example.org" "owners" 1).
Defined.

Lemma same_name_overwrites_worker_witness :
  ∃ st',
    create_job square [1; 2] [] (mkState pool_one_name world0) = (Ok tt, st') ∧
    fs (world st') = {[ "job.sh" := slurm_commands (self st') ]}.
Proof.
  destruct (same_name_overwrites_worker square [1; 2] []
              (mkState pool_one_name world0)
              (concat_str [ "    def square(x, **kwargs):"; nl;
                            "        print(x * x)"; nl ]))
    as (st' & Hrun & Hfs).
  - simpl. lia.
  - done.
  - reflexivity.
  - reflexivity.
  - exists st'. split; [done|]. exact Hfs.
Defined.


Lemma submitted_descriptor_is_current_witness :
  ∃ cl' files,
    @create_submit_job Z PyFunction _ _ accept_all square [1; 2] [("a", 1)]
      (mkCluster (mkState pool5 world0) []) = (Ok tt, cl') ∧
    submissions cl' = [(slurm_script_name pool5, files)] ∧
    files !! "job_6fa459ea-ee8a-4ca4-894e-db77e160355e.slurm"
      = Some (concat_str [
          "#!/bin/bash"; nl;
          nl;
          "## add additional SBATCH directives here"; nl;
          "#SBATCH --partition=owners"; nl;
          "#SBATCH --job-name=job"; nl;
          "#SBATCH --output=logs/%j.log"; nl;
          "#SBATCH --time=00:10:00"; nl;
          "#SBATCH --mem=1G"; nl;
          "#SBATCH --cpus-per-task=1"; nl;
          "#SBATCH --mail-type=FAIL"; nl;
          "#SBATCH --mail-user=me@example.org"; nl;
          "#SBATCH --array=0-1"; nl;
          nl;
          "# load modules, adjust to your needs"; nl;
          "ml devel"; nl;
          "ml python/3.9.0"; nl;
          nl;
          "# execute the Python code, this should stay as is."; nl;
          "python3 job_6fa459ea-ee8a-4ca4-894e-db77e160355e.py ${SLURM_ARRAY_TASK_ID}";
          nl ]) ∧
    last (log (world (node cl'))) = Some "Job job submitted.".
Proof.
  destruct (@submitted_descriptor_is_current Z PyFunction _ _ accept_all
              square [1; 2] [("a", 1)] (mkCluster (mkState pool5 world0) [])
              (concat_str [ "    def square(x, **kwargs):"; nl;
                            "        print(x * x)"; nl ]))
    as (cl' & files & Hrun & Hsub & _ & Hfile & _ & Hlog).
  - simpl. lia.
  - done.
  - reflexivity.
  - done.
  - exists cl', files. split; [done|]. split; [exact Hsub|].
    split; [|exact Hlog].
    change "job_6fa459ea-ee8a-4ca4-894e-db77e160355e.slurm"
      with (slurm_script_name
              (self (node (mkCluster (mkState pool5 world0) [])))).
    rewrite Hfile. reflexivity.
Defined.

Lemma rejected_submission_keeps_artifacts_witness :
  ∃ st',
    create_job square [1; 2] [("a", 1)] (mkState pool5 world0) = (Ok tt, st') ∧
    (@create_submit_job Z PyFunction _ _ reject_all square [1; 2] [("a", 1)]
       (mkCluster (mkState pool5 world0) [])).1
      = Raise (Exception
          "Command '['sbatch', 'job_6fa459ea-ee8a-4ca4-894e-db77e160355e.slurm']' returned non-zero exit status 1.").
Proof.
  destruct (@rejected_submission_keeps_artifacts Z PyFunction _ _ reject_all
              square [1; 2] [("a", 1)] (mkCluster (mkState pool5 world0) [])
              (concat_str [ "    def square(x, **kwargs):"; nl;
                            "        print(x * x)"; nl ])
              (Exception
                 "Command '['sbatch', 'job_6fa459ea-ee8a-4ca4-894e-db77e160355e.slurm']' returned non-zero exit status 1."))
    as (st' & Hjob & Hrun).
  - simpl. lia.
  - done.
  - reflexivity.
  - done.
  - exists st'. split; [done|]. by rewrite Hrun.
Defined.

Lemma reused_pool_keeps_reduced_array_witness :
  ∃ st1 st2,
    create_job square [1; 2] [] (mkState pool5 world0) = (Ok tt, st1) ∧
    create_job square [1; 2; 3; 4; 5; 6] [] st1 = (Ok tt, st2) ∧
    num_tasks (self st2) = 2 ∧
    fs (world st2) !! "job_6fa459ea-ee8a-4ca4-894e-db77e160355e.slurm"
      = Some (concat_str [
          "#!/bin/bash"; nl;
          nl;
          "## add additional SBATCH directives here"; nl;
          "#SBATCH --partition=owners"; nl;
          "#SBATCH --job-name=job"; nl;
          "#SBATCH --output=logs/%j.log"; nl;
          "#SBATCH --time=00:10:00"; nl;
          "#SBATCH --mem=1G"; nl;
          "#SBATCH --cpus-per-task=1"; nl;
          "#SBATCH --mail-type=FAIL"; nl;
          "#SBATCH --mail-user=me@example.org"; nl;
          "#SBATCH --array=0-1"; nl;
          nl;
          "# load modules, adjust to your needs"; nl;
          "ml devel"; nl;
          "ml python/3.9.0"; nl;
          nl;
          "# execute the Python code, this should stay as is."; nl;
          "python3 job_6fa459ea-ee8a-4ca4-894e-db77e160355e.py ${SLURM_ARRAY_TASK_ID}";
          nl ]).
Proof.
  destruct (reused_pool_keeps_reduced_array square square
              [1; 2] [1; 2; 3; 4; 5; 6] [] [] (mkState pool5 world0)
              (concat_str [ "    def square(x, **kwargs):"; nl;
                            "        print(x * x)"; nl ])
              (concat_str [ "    def square(x, **kwargs):"; nl;
                            "        print(x * x)"; nl ]))
    as (st1 & st2 & Hrun1 & Hrun2 & Hn & Hfile).
  - simpl. lia.
  - done.
  - done.
  - reflexivity.
  - reflexivity.
  - exists st1, st2. split; [done|]. split; [done|]. split; [exact Hn|].
    change "job_6fa459ea-ee8a-4ca4-894e-db77e160355e.slurm"
      with (slurm_script_name (self (mkState pool5 world0))).
    rewrite Hfile. reflexivity.
Defined.

Lemma both_artifacts_written_witness :
  ∃ st',
    @Disk.create_job Z PyFunction _ _ plain_files square [1; 2] [("a", 1)]
      (mkState pool5 world0) = (Ok tt, st') ∧
    fs (world st') !! "job_6fa459ea-ee8a-4ca4-894e-db77e160355e.py"
      = Some (concat_str [
          nl;
          "import sys"; nl;
          "import logging"; nl;
          nl;
          "def square(x, **kwargs):"; nl;
          "    print(x * x)"; nl;
          nl;
          nl;
          nl;
          "def wrapper(func, args_list, kwargs):"; nl;
          "    for arg in args_list:"; nl;
          "        if kwargs:"; nl;
          "            func(arg, **kwargs)"; nl;
          "        else:"; nl;
          "            func(arg)"; nl;
          nl;
          nl;
          "if __name__ == '__main__':"; nl;
          "    task_id = int(sys.argv[1])"; nl;
          "    kwargs = {'a': 1}"; nl;
          "    mapping = {0: (1,), 1: (2,)}"; nl;
          "    args_list = mapping.get(task_id, [])"; nl;
          "    if not args_list:"; nl;
          "        raise ValueError(f"; dq;
            "No arguments found for task_id {task_id}."; dq; ")"; nl;
          nl;
          "    logging.basicConfig(level=logging.INFO, format='%(asctime)s [%(levelname)s] %(message)s')"; nl;
          "    logging.info(f"; dq;
            "Task {task_id}: Processing arguments {args_list} with kwargs {kwargs}";
            dq; ")"; nl;
          nl;
          "    # Here, we're calling the wrapper function, passing in the task function, arguments, and kwargs for this task"; nl;
          "    wrapper(square, args_list, kwargs)"; nl;
          "    logging.info(f"; dq; "Task {task_id}: finished successfully.";
            dq; ")"; nl ]) ∧
    is_Some (fs (world st')
               !! "job_6fa459ea-ee8a-4ca4-894e-db77e160355e.slurm").
Proof.
  destruct (@both_artifacts_written Z PyFunction _ _ plain_files
              square [1; 2] [("a", 1)] (mkState pool5 world0)
              (concat_str [ "    def square(x, **kwargs):"; nl;
                            "        print(x * x)"; nl ]))
    as (st' & m & Hrun & Hm & Hpy & Hsl & _).
  - simpl. lia.
  - done.
  - reflexivity.
  - done.
  - done.
  - exists st'. split; [done|].
    assert (Hm' : m = [(0, [1]); (1, [2])]).
    { assert (Hst : st' = (@Disk.create_job Z PyFunction _ _ plain_files
                             square [1; 2] [("a", 1)]
                             (mkState pool5 world0)).2) by (by rewrite Hrun).
      rewrite Hst in Hm. vm_compute in Hm. by injection Hm. }
    split.
    + change "job_6fa459ea-ee8a-4ca4-894e-db77e160355e.py"
        with (@resolve plain_files
                (python_script_name (self (mkState pool5 world0)))).
      rewrite Hpy, Hm'. reflexivity.
    + change "job_6fa459ea-ee8a-4ca4-894e-db77e160355e.slurm"
        with (@resolve plain_files
                (slurm_script_name (self (mkState pool5 world0)))).
      by rewrite Hsl.
Defined.

Lemma worker_script_checks_precede_write_witness :
  @Disk.create_python_script Z PyFunction _ _ missing_directory_files
    (mkState pool3 world0)
    = (Raise (ValueError
         "Task function not set. Use the set_task_function method to set it."),
       mkState pool3 world0).
Proof.
  apply (proj1 (@worker_script_checks_precede_write Z PyFunction _ _
                  missing_directory_files (mkState pool3 world0))).
  reflexivity.
Defined.

Lemma descriptor_failure_leaves_worker_script_witness :
  ∃ st',
    @Disk.create_job Z PyFunction _ _ missing_directory_files
      square [1; 2] [] (mkState pool_missing_directory world0)
      = (Raise (FileNotFoundError
           "[Errno 2] No such file or directory: 'nodir/job.slurm'"), st') ∧
    is_Some (fs (world st') !! "job.py") ∧
    fs (world st') !! "nodir/job.slurm" = None.
Proof.
  destruct (@descriptor_failure_leaves_worker_script Z PyFunction _ _
              missing_directory_files square [1; 2] []
              (mkState pool_missing_directory world0)
              (concat_str [ "    def square(x, **kwargs):"; nl;
                            "        print(x * x)"; nl ])
              (FileNotFoundError
                 "[Errno 2] No such file or directory: 'nodir/job.slurm'"))
    as (st' & text & Hrun & _ & Hfs & _).
  - simpl. lia.
  - done.
  - reflexivity.
  - done.
  - done.
  - exists st'. split; [done|]. rewrite Hfs. split.
    + exists text. apply lookup_insert_eq.
    + rewrite lookup_insert_ne by done. done.
Defined.

Lemma aliased_names_leave_one_file_witness :
  python_script_name pool_dot_slash ≠ slurm_script_name pool_dot_slash ∧
  ∃ st',
    @Disk.create_job Z PyFunction _ _ dot_slash_files square [1; 2] []
      (mkState pool_dot_slash world0) = (Ok tt, st') ∧
    fs (world st') = {[ "job.sh" := slurm_commands (self st') ]}.
Proof.
  split; [done|].
  destruct (@aliased_names_leave_one_file Z PyFunction _ _ dot_slash_files
              square [1; 2] [] (mkState pool_dot_slash world0)
              (concat_str [ "    def square(x, **kwargs):"; nl;
                            "        print(x * x)"; nl ]))
    as (st' & Hrun & Hfs).
  - simpl. lia.
  - done.
  - reflexivity.
  - done.
  - reflexivity.
  - exists st'. split; [done|]. exact Hfs.
Defined.


Lemma square_is_no_script_name : "square" ∉ script_names.
Proof.
  intros Hin. unfold script_names in Hin.
  repeat (apply elem_of_cons in Hin as [Hin|Hin]; [discriminate|]).
  by apply elem_of_nil in Hin.
Defined.

Lemma worker_calls_are_a_prefix_witness :
  ∃ res k,
    @run_script Z (list Z) _ decimal_int fails_on_20 "square"
      [(0, [10; 40]); (1, [20; 50]); (2, [30])] (Some [])
      ["job.py"; "1"] (mkRun [] [] []) = Some res ∧
    calls res.2 = called [] (take k [20; 50]).
Proof.
  destruct (@worker_calls_are_a_prefix Z (list Z) _ decimal_int fails_on_20
              "square" [(0, [10; 40]); (1, [20; 50]); (2, [30])] (Some [])
              ["job.py"; "1"] (mkRun [] [] []) square_is_no_script_name)
    as (res & Hrun & k & _ & Hcalls & _).
  exists res, k. split; [exact Hrun | exact Hcalls].
Defined.





